(** * Jokes microservices: a shallow embedding of the four Go services

    The repository holds four small HTTP services written with gin:
    the gateway ([services/gateway/main.go]), the jokes service
    ([services/jokes/main.go]), the analytics service
    ([services/analytics/main.go]) and the user service
    ([services/user/main.go]).  Each handler is embedded as a function in a
    state-and-panic monad over the service's package-level variables.

    What is embedded: the package-level data (joke list, [Stats],
    [favorites]), the handlers and the helpers they call, the metric
    instruments (as a log of recorded measurements), the outbound HTTP calls
    (as a log of sent requests answered by an oracle), the wall clock and the
    random source (as oracles read in program order).  Loggers and spans only
    write to the telemetry exporter and are left out. *)

From Stdlib Require Import ZArith List String Bool Lia.
Import ListNotations.
Set Warnings "-register-all".
Open Scope string_scope.
Open Scope Z_scope.

(** ** Go base types *)

Module Go.

(** [int64] and [int] (64 bit on the build target, [GOOS=linux]) are
    integers in [-2^63, 2^63); arithmetic wraps around. *)
Definition minInt64 : Z := - 2 ^ 63.
Definition maxInt64 : Z := 2 ^ 63 - 1.

Definition wrap64 (z : Z) : Z := (z + 2 ^ 63) mod 2 ^ 64 - 2 ^ 63.

(** [x++] on an [int64]. *)
Definition incr64 (x : Z) : Z := wrap64 (x + 1).

(** A run-time panic, with the message the runtime or library gives. *)
Inductive PanicKind : Type :=
| IntnInvalidArgument        (* panic("invalid argument to Intn") *)
| IndexOutOfRange (i len : Z)
| NilPointerDereference      (* invalid memory address or nil pointer dereference *).

Inductive Result (A : Type) : Type :=
| Ok (a : A)
| Panic (p : PanicKind).
Arguments Ok {A} a.
Arguments Panic {A} p.

(** A slice is [nil] or a (possibly empty) backing sequence. *)
Inductive slice (A : Type) : Type :=
| nil_slice
| mk_slice (l : list A).
Arguments nil_slice {A}.
Arguments mk_slice {A} l.

Definition elems {A} (s : slice A) : list A :=
  match s with
  | nil_slice => []
  | mk_slice l => l
  end.

Definition len {A} (s : slice A) : Z := Z.of_nat (List.length (elems s)).

(** [append(s, x)]: the result is never nil. *)
Definition append {A} (s : slice A) (x : A) : slice A :=
  mk_slice (List.app (elems s) [x]).

(** [make([]T, 0)] *)
Definition make0 {A} : slice A := mk_slice [].

(** [s[i]] on a slice of [l]: a panic outside [0, len). *)
Definition index {A} (l : list A) (i : Z) : Result A :=
  if (0 <=? i) && (i <? Z.of_nat (List.length l)) then
    match nth_error l (Z.to_nat i) with
    | Some x => Ok x
    | None => Panic (IndexOutOfRange i (Z.of_nat (List.length l)))
    end
  else Panic (IndexOutOfRange i (Z.of_nat (List.length l))).

End Go.
Export Go.

(** ** Package [time] *)

Module GoTime.

(** A [time.Time] as nanoseconds since the epoch; a [time.Duration] is an
    [int64] count of nanoseconds. *)
Definition Time := Z.
Definition Duration := Z.

Definition Nanosecond : Duration := 1.
Definition Millisecond : Duration := 1000000.
Definition Second : Duration := 1000000000.

(** [t.Sub(u)]: the difference, saturated to the range of [Duration]. *)
Definition Sub (t u : Time) : Duration :=
  if t - u <? minInt64 then minInt64
  else if maxInt64 <? t - u then maxInt64
  else t - u.

(** [d.Milliseconds()]: Go's integer division truncates toward zero. *)
Definition Milliseconds (d : Duration) : Z := Z.quot d Millisecond.

(** [d.Seconds()] is the [float64] value
    [float64(d / Second) + float64(d % Second) / 1e9]; the two integer
    parts that determine it are kept. *)
Record FloatSeconds : Type := { whole_sec : Z; frac_nsec : Z }.

Definition Seconds (d : Duration) : FloatSeconds :=
  {| whole_sec := Z.quot d Second; frac_nsec := Z.rem d Second |}.

Definition RFC3339 : string := "2006-01-02T15:04:05Z07:00".
Definition RFC3339Nano : string := "2006-01-02T15:04:05.999999999Z07:00".

(** The wall clock: the readings [time.Now()] returns, in call order. *)
Record Clock : Type := { reading : nat -> Time; ticks : nat }.

Definition read (c : Clock) : Time := reading c (ticks c).
Definition advance (c : Clock) : Clock :=
  {| reading := reading c; ticks := S (ticks c) |}.

End GoTime.
Export GoTime.

(** ** What a process reads from its surroundings *)

Record Runtime : Type := {
  (** [t.Format(layout)], which depends on the local time zone *)
  Format : string -> Time -> string;
  (** [os.Getenv] *)
  Getenv : string -> string
}.

(** ** Values handed to [c.JSON], and their JSON encoding *)

Module Json.

Inductive json : Type :=
| JNull
| JInt (z : Z)
| JFloat (f : FloatSeconds)
| JStr (s : string)
| JArr (l : list json)
| JObj (fields : list (string * json)).

Fixpoint field (k : string) (fields : list (string * json)) : option json :=
  match fields with
  | [] => None
  | (k', v) :: rest => if String.eqb k k' then Some v else field k rest
  end.

Definition get (k : string) (j : json) : option json :=
  match j with
  | JObj fields => field k fields
  | _ => None
  end.

End Json.
Export Json.

(** ** OpenTelemetry metric instruments *)

Module Metric.

Inductive AttrValue : Type :=
| AString (s : string)
| AInt (z : Z).

Definition Attr : Type := (string * AttrValue)%type.

(** One measurement handed to an instrument: [Int64Counter.Add] or
    [Float64Histogram.Record], with the instrument's name. *)
Inductive Measurement : Type :=
| Add (instrument : string) (incr : Z) (attrs : list Attr)
| Record_ (instrument : string) (value : Z) (attrs : list Attr).

Definition attrs_of (m : Measurement) : list Attr :=
  match m with
  | Add _ _ attrs => attrs
  | Record_ _ _ attrs => attrs
  end.

(** The measurement carries an attribute with this key. *)
Definition has_label (key : string) (m : Measurement) : bool :=
  existsb (fun a => String.eqb (fst a) key) (attrs_of m).

(** The measurements handed to a histogram. *)
Definition is_record (instrument : string) (m : Measurement) : bool :=
  match m with
  | Add _ _ _ => false
  | Record_ i _ _ => String.eqb i instrument
  end.

End Metric.
Export Metric.

(** ** gin responses *)

Module Gin.

Inductive Body : Type :=
| NoBody
| JsonBody (j : json)                             (* c.JSON *)
| DataBody (contentType : string) (data : string) (* c.Data *)
| RedirectBody                                    (* http.Redirect *).

Record Response : Type := { status : Z; body : Body }.

Definition StatusOK : Z := 200.
Definition StatusCreated : Z := 201.
Definition StatusMovedPermanently : Z := 301.
Definition StatusTemporaryRedirect : Z := 307.
Definition StatusBadRequest : Z := 400.
Definition StatusNotFound : Z := 404.
Definition StatusInternalServerError : Z := 500.
Definition StatusBadGateway : Z := 502.

(** [c.Query(key)]: the first value of the key, or the empty string. *)
Fixpoint Query (query : list (string * string)) (key : string) : string :=
  match query with
  | [] => ""
  | (k, v) :: rest => if String.eqb k key then v else Query rest key
  end.

End Gin.
Export Gin.

(** ** The state-and-panic monad of a handler *)

Module Monad.

Definition M (S A : Type) : Type := S -> Result (A * S).

Definition ret {S A} (a : A) : M S A := fun s => Ok (a, s).

Definition bind {S A B} (m : M S A) (k : A -> M S B) : M S B :=
  fun s =>
    match m s with
    | Ok (a, s') => k a s'
    | Panic p => Panic p
    end.

Definition gets {S A} (f : S -> A) : M S A := fun s => Ok (f s, s).
Definition modify {S} (f : S -> S) : M S unit := fun s => Ok (tt, f s).
Definition panic {S A} (p : PanicKind) : M S A := fun _ => Panic p.

Definition lift {S A} (r : Result A) : M S A :=
  fun s => match r with Ok a => Ok (a, s) | Panic p => Panic p end.

End Monad.
Export Monad.

Declare Scope go_scope.
Delimit Scope go_scope with go.
Notation "x <- m ;; k" := (bind m (fun x => k))
  (at level 61, m at next level, right associativity) : go_scope.
Notation "m ;;; k" := (bind m (fun _ => k))
  (at level 61, right associativity) : go_scope.
Open Scope go_scope.

(** ** Jokes service ([services/jokes/main.go]) *)

Module Jokes.

Definition jokes : list string := [
  "Why do programmers hate nature? It has too many bugs.";
  "I told my computer I needed a break, and it said 'No problem — I'll go to sleep.'";
  "Debugging is like being the detective in a crime movie where you are also the murderer.";
  "Why do Java developers wear glasses? Because they don't C#.";
  "To understand recursion, you must first understand recursion.";
  "There are 10 types of people: those who understand binary and those who don't.";
  "Why did the programmer quit? Because they didn't get arrays.";
  "A SQL query walks into a bar, walks up to two tables and asks: 'Can I join you?'"
].

(** The global source of [math/rand]: the raw draws, in call order. *)
Record Rand : Type := { draw : nat -> Z; drawn : nat }.

(** A goroutine started by [notifyAnalytics]: the variables its closure
    captured.  Its body is [notification] below; it runs beside the
    handler, which never waits for it. *)
Record Goroutine : Type := {
  g_analyticsService : string;
  g_joke : string
}.

Record State : Type := {
  jokeList : list string;       (* var jokes *)
  rand : Rand;
  clock : Clock;
  measurements : list Measurement;
  slept : list Duration;        (* time.Sleep calls *)
  spawned : list Goroutine      (* goroutines started *)
}.

Definition with_rand (r : Rand) (s : State) : State :=
  {| jokeList := jokeList s; rand := r; clock := clock s;
     measurements := measurements s; slept := slept s;
     spawned := spawned s |}.

Definition with_clock (c : Clock) (s : State) : State :=
  {| jokeList := jokeList s; rand := rand s; clock := c;
     measurements := measurements s; slept := slept s;
     spawned := spawned s |}.

Definition with_measurement (m : Measurement) (s : State) : State :=
  {| jokeList := jokeList s; rand := rand s; clock := clock s;
     measurements := List.app (measurements s) [m]; slept := slept s;
     spawned := spawned s |}.

Definition with_sleep (d : Duration) (s : State) : State :=
  {| jokeList := jokeList s; rand := rand s; clock := clock s;
     measurements := measurements s; slept := List.app (slept s) [d];
     spawned := spawned s |}.

Definition with_spawn (n : Goroutine) (s : State) : State :=
  {| jokeList := jokeList s; rand := rand s; clock := clock s;
     measurements := measurements s; slept := slept s;
     spawned := List.app (spawned s) [n] |}.

(** [rand.Intn(n)]: panics when [n <= 0], otherwise a value in [0, n)
    determined by the next raw draw. *)
Definition Intn (n : Z) : M State Z :=
  if n <=? 0 then panic IntnInvalidArgument
  else
    r <- gets rand ;;
    modify (with_rand {| draw := draw r; drawn := S (drawn r) |}) ;;;
    ret (draw r (drawn r) mod n).

Definition Now : M State Time :=
  c <- gets clock ;;
  modify (with_clock (advance c)) ;;;
  ret (read c).

Definition Since (t : Time) : M State Duration :=
  now <- Now ;; ret (Sub now t).

Definition Sleep (d : Duration) : M State unit := modify (with_sleep d).

Definition getRandomJoke : M State string :=
  start <- Now ;;
  (* Simulate some processing *)
  n <- Intn 50 ;;
  Sleep (wrap64 (Millisecond * n)) ;;;
  js <- gets jokeList ;;
  i <- Intn (Z.of_nat (List.length js)) ;;
  joke <- lift (index js i) ;;
  d <- Since start ;;
  let duration := Milliseconds d in
  modify (with_measurement (Record_ "jokes.latency" duration [])) ;;;
  ret joke.

Section WithRuntime.
Variable rt : Runtime.

Definition notifyAnalytics (joke : string) : M State unit :=
  let analyticsService := Getenv rt "ANALYTICS_SERVICE_URL" in
  let analyticsService :=
    if String.eqb analyticsService ""
    then "analytics-service.default.svc.cluster.local"
    else analyticsService in
  (* Make async call to analytics service *)
  modify (with_spawn {| g_analyticsService := analyticsService;
                        g_joke := joke |}).

(** [r.GET("/api/v1/joke", ...)] *)
Definition handleJoke : M State Response :=
  joke <- getRandomJoke ;;
  (* Increment counter *)
  modify (with_measurement (Add "jokes.served" 1 [])) ;;;
  (* Notify analytics asynchronously *)
  notifyAnalytics joke ;;;
  now <- Now ;;
  ret {| status := StatusOK;
         body := JsonBody (JObj [
           ("joke", JStr joke);
           ("service", JStr "jokes-service");
           ("timestamp", JStr (Format rt RFC3339 now)) ]) |}.

End WithRuntime.

(** [http.Header], one value per key, and [h.Set(key, value)]. *)
Definition Header : Type := list (string * string).

Definition Set_ (key value : string) (h : Header) : Header :=
  (key, value) :: filter (fun kv => negb (String.eqb (fst kv) key)) h.

(** The request the goroutine sends; it has no body. *)
Record Request : Type := {
  Method : string;
  URL : string;
  ReqHeader : Header
}.

(** What lies outside the process, for the goroutine: whether [net/http]
    accepts a method and URL, what the propagator injects for the context of
    the request being served, and whether a call with a given client timeout
    fails ([Some] error) or returns a response. *)
Record Network : Type := {
  newRequestError : string -> string -> option string;
  Inject : Header -> Header;
  roundTrip : Duration -> Request -> option string
}.

(** What a goroutine that got as far as [client.Do] did: the timeout of its
    client, the request it sent, and the error it logged as a warning, if
    the call failed.  Nothing of this reaches the handler. *)
Record Notified : Type := {
  clientTimeout : Duration;
  sentRequest : Request;
  warned : option string
}.

(** [string(rune(n))] for an [int] [n]: the UTF-8 encoding of the code
    point [n] cut to 32 bits, or of U+FFFD when that is not a valid code
    point. *)
Definition wrap32 (z : Z) : Z := (z + 2 ^ 31) mod 2 ^ 32 - 2 ^ 31.

Definition bytes (l : list Z) : string :=
  fold_right (fun b rest => String (Ascii.ascii_of_N (Z.to_N b)) rest) "" l.

Definition runeString (n : Z) : string :=
  let r := wrap32 n in
  if (r <? 0) || (1114111 <? r) || ((55296 <=? r) && (r <=? 57343))
  then bytes [239; 191; 189]
  else if r <? 128 then bytes [r]
  else if r <? 2048 then bytes [192 + r / 64; 128 + r mod 64]
  else if r <? 65536
  then bytes [224 + r / 4096; 128 + (r / 64) mod 64; 128 + r mod 64]
  else bytes [240 + r / 262144; 128 + (r / 4096) mod 64;
              128 + (r / 64) mod 64; 128 + r mod 64].

(** The body of the goroutine.  The error of [http.NewRequest] is dropped,
    so when the request cannot be built [req] is nil and [req.Header]
    panics; a panic in a goroutine ends the process. *)
Definition notification (nw : Network) (g : Goroutine) : Result Notified :=
  let timeout := 2 * Second in
  match newRequestError nw "POST"
          ("http://" ++ g_analyticsService g ++ "/internal/track") with
  | Some _ => Panic NilPointerDereference
  | None =>
      let header :=
        Set_ "X-Joke-Length"
             (runeString (Z.of_nat (String.length (g_joke g)))) [] in
      let header := Inject nw header in
      let req := {| Method := "POST";
                    URL := "http://" ++ g_analyticsService g ++ "/internal/track";
                    ReqHeader := header |} in
      Ok {| clientTimeout := timeout; sentRequest := req;
            warned := roundTrip nw timeout req |}
  end.

(** The state after package initialisation. *)
Definition init (r : Rand) (c : Clock) : State :=
  {| jokeList := jokes; rand := r; clock := c;
     measurements := []; slept := []; spawned := [] |}.

End Jokes.

(** ** Analytics service ([services/analytics/main.go]) *)

Module Analytics.

Record Stats : Type := {
  requests : Z;       (* int64 *)
  totalJokes : Z;     (* int64 *)
  lastUpdate : Time
}.

Record State : Type := {
  stats : Stats;
  clock : Clock;
  measurements : list Measurement
}.

Definition with_stats (x : Stats) (s : State) : State :=
  {| stats := x; clock := clock s; measurements := measurements s |}.

Definition with_clock (c : Clock) (s : State) : State :=
  {| stats := stats s; clock := c; measurements := measurements s |}.

Definition with_measurement (m : Measurement) (s : State) : State :=
  {| stats := stats s; clock := clock s;
     measurements := List.app (measurements s) [m] |}.

Definition Now : M State Time :=
  c <- gets clock ;;
  modify (with_clock (advance c)) ;;;
  ret (read c).

Definition Since (t : Time) : M State Duration :=
  now <- Now ;; ret (Sub now t).

Definition trackEvent : M State unit :=
  modify (fun s => with_stats
    {| requests := incr64 (requests (stats s));
       totalJokes := totalJokes (stats s);
       lastUpdate := lastUpdate (stats s) |} s) ;;;
  modify (fun s => with_stats
    {| requests := requests (stats s);
       totalJokes := incr64 (totalJokes (stats s));
       lastUpdate := lastUpdate (stats s) |} s) ;;;
  now <- Now ;;
  modify (fun s => with_stats
    {| requests := requests (stats s);
       totalJokes := totalJokes (stats s);
       lastUpdate := now |} s) ;;;
  modify (with_measurement (Add "analytics.tracks" 1 [])).

Section WithRuntime.
Variable rt : Runtime.

Definition getStats : M State json :=
  st <- gets stats ;;
  uptime <- Since (lastUpdate st) ;;
  ret (JObj [
    ("total_requests", JInt (requests st));
    ("total_jokes", JInt (totalJokes st));
    ("last_update", JStr (Format rt RFC3339 (lastUpdate st)));
    ("uptime_seconds", JFloat (Seconds uptime)) ]).

(** [r.GET("/api/v1/stats", ...)] *)
Definition handleStats : M State Response :=
  statistics <- getStats ;;
  ret {| status := StatusOK; body := JsonBody statistics |}.

End WithRuntime.

(** [r.POST("/internal/track", ...)]: the request body is never read. *)
Definition handleTrack : M State Response :=
  trackEvent ;;;
  ret {| status := StatusOK;
         body := JsonBody (JObj [("status", JStr "tracked")]) |}.

(** The state when the server starts: the package-level [stats] literal,
    then [stats.lastUpdate = time.Now()] in [main]. *)
Definition init (c : Clock) : State :=
  {| stats := {| requests := 0; totalJokes := 0; lastUpdate := read c |};
     clock := advance c;
     measurements := [] |}.

(** [n] track requests served one after the other. *)
Fixpoint tracks (n : nat) (s : State) : Result State :=
  match n with
  | O => Ok s
  | S n' =>
      match handleTrack s with
      | Ok (_, s') => tracks n' s'
      | Panic p => Panic p
      end
  end.

(** The states the service can be in: the initial one, and those left by
  its two handlers (the health check touches no state). *)
Inductive reachable (rt : Runtime) (c : Clock) : State -> Prop :=
| reach_init : reachable rt c (init c)
| reach_track s r s' :
    reachable rt c s -> handleTrack s = Ok (r, s') -> reachable rt c s'
| reach_stats s r s' :
    reachable rt c s -> handleStats rt s = Ok (r, s') -> reachable rt c s'.

End Analytics.

(** ** User service ([services/user/main.go]) *)

Module User.

Record Favorite : Type := {
  ID : string;
  Joke : string;
  UserID : string;
  CreatedAt : Time
}.

Record FavoriteRequest : Type := {
  reqJoke : string;     (* json:"joke" binding:"required" *)
  reqUserID : string    (* json:"user_id" binding:"required" *)
}.

(** The body of a POST as [encoding/json] reads it into a
    [FavoriteRequest]: rejected (syntax error, wrong type, no body), or an
    object where each of the two keys is absent or bound to a string. *)
Inductive RequestBody : Type :=
| Undecodable (err : string)
| Object (joke user_id : option string).

Record State : Type := {
  favorites : slice Favorite;
  clock : Clock;
  measurements : list Measurement
}.

Definition with_favorites (f : slice Favorite) (s : State) : State :=
  {| favorites := f; clock := clock s; measurements := measurements s |}.

Definition with_clock (c : Clock) (s : State) : State :=
  {| favorites := favorites s; clock := c; measurements := measurements s |}.

Definition with_measurement (m : Measurement) (s : State) : State :=
  {| favorites := favorites s; clock := clock s;
     measurements := List.app (measurements s) [m] |}.

Definition Now : M State Time :=
  c <- gets clock ;;
  modify (with_clock (advance c)) ;;;
  ret (read c).

(** A field left out of the body keeps Go's zero value. *)
Definition decode (joke user_id : option string) : FavoriteRequest :=
  {| reqJoke := match joke with Some j => j | None => "" end;
     reqUserID := match user_id with Some u => u | None => "" end |}.

(** The message of the validator for a field that fails [required]. *)
Definition requiredError (name : string) : string :=
  "Key: 'FavoriteRequest." ++ name ++ "' Error:Field validation for '"
    ++ name ++ "' failed on the 'required' tag".

(** The [binding:"required"] tags: a string field must not be empty.
    The failures of all fields are reported, one per line. *)
Definition validate (req : FavoriteRequest) : option string :=
  let errs :=
    List.app
      (if String.eqb (reqJoke req) "" then [requiredError "Joke"] else [])
      (if String.eqb (reqUserID req) "" then [requiredError "UserID"] else [])
  in
  match errs with
  | [] => None
  | _ => Some (String.concat (String (Ascii.ascii_of_nat 10) "") errs)
  end.

(** [c.ShouldBindJSON(&req)] *)
Definition ShouldBindJSON (b : RequestBody) : FavoriteRequest + string :=
  match b with
  | Undecodable err => inr err
  | Object joke user_id =>
      let req := decode joke user_id in
      match validate req with
      | Some err => inr err
      | None => inl req
      end
  end.

Section WithRuntime.
Variable rt : Runtime.

Definition addFavorite (req : FavoriteRequest) : M State Favorite :=
  t1 <- Now ;;
  t2 <- Now ;;
  let fav := {| ID := Format rt "20060102150405" t1;
                Joke := reqJoke req;
                UserID := reqUserID req;
                CreatedAt := t2 |} in
  modify (fun s => with_favorites (append (favorites s) fav) s) ;;;
  modify (with_measurement (Add "user.favorites.added" 1 [])) ;;;
  ret fav.

(** The loop of [getFavorites]: one iteration. *)
Definition collect (userID : string) (userFavorites : slice Favorite)
    (fav : Favorite) : slice Favorite :=
  if String.eqb userID "" || String.eqb (UserID fav) userID
  then append userFavorites fav
  else userFavorites.

Definition getFavorites (userID : string) : M State (slice Favorite) :=
  favs <- gets favorites ;;
  ret (fold_left (collect userID) (elems favs) nil_slice).

(** [encoding/json] on a [Favorite] and on a [[]Favorite]. *)
Definition marshalFavorite (f : Favorite) : json :=
  JObj [ ("id", JStr (ID f));
         ("joke", JStr (Joke f));
         ("user_id", JStr (UserID f));
         ("created_at", JStr (Format rt RFC3339Nano (CreatedAt f))) ].

Definition marshalFavorites (s : slice Favorite) : json :=
  match s with
  | nil_slice => JNull
  | mk_slice l => JArr (map marshalFavorite l)
  end.

(** [r.POST("/api/v1/favorite", ...)] *)
Definition handleFavorite (b : RequestBody) : M State Response :=
  match ShouldBindJSON b with
  | inr err =>
      ret {| status := StatusBadRequest;
             body := JsonBody (JObj [("error", JStr err)]) |}
  | inl req =>
      favorite <- addFavorite req ;;
      ret {| status := StatusCreated;
             body := JsonBody (marshalFavorite favorite) |}
  end.

(** [r.GET("/api/v1/favorites", ...)] *)
Definition handleFavorites (query : list (string * string))
    : M State Response :=
  let userID := Query query "user_id" in
  userFavorites <- getFavorites userID ;;
  ret {| status := StatusOK;
         body := JsonBody (JObj [
           ("favorites", marshalFavorites userFavorites);
           ("count", JInt (len userFavorites)) ]) |}.

End WithRuntime.

(** The state when the server starts: [favorites = make([]Favorite, 0)]. *)
Definition init (c : Clock) : State :=
  {| favorites := make0; clock := c; measurements := [] |}.

End User.

(** ** API gateway ([services/gateway/main.go]) *)

Module Gateway.

(** The trace context carried by a request's [context.Context]. *)
Record SpanContext : Type := {
  traceID : string;
  spanID : string;
  sampled : bool
}.
Definition Context : Type := option SpanContext.

(** [http.Header], one value per key. *)
Definition Header : Type := list (string * string).

(** [h.Set(key, value)] replaces what the key held. *)
Definition Set_ (key value : string) (h : Header) : Header :=
  (key, value) :: filter (fun kv => negb (String.eqb (fst kv) key)) h.

(** The request gin hands to the handler chain. *)
Record Inbound : Type := {
  inMethod : string;      (* c.Request.Method *)
  inPath : string;        (* c.Request.URL.Path *)
  inBody : string;        (* c.Request.Body *)
  inCtx : Context         (* c.Request.Context() *)
}.

(** An outbound [*http.Request]. *)
Record Request : Type := {
  Method : string;
  URL : string;
  ReqBody : string;
  ReqHeader : Header;
  ReqCtx : Context
}.

Definition with_header (h : Header) (r : Request) : Request :=
  {| Method := Method r; URL := URL r; ReqBody := ReqBody r;
     ReqHeader := h; ReqCtx := ReqCtx r |}.

(** [http.Client] *)
Record Client : Type := { Timeout : Duration }.

(** A backend's [*http.Response]; [RespBody] is what [io.ReadAll] gets
    from the body: its bytes, or a read error. *)
Record BackendResponse : Type := {
  StatusCode : Z;
  RespBody : string + string
}.

(** What lies outside the process: whether [net/http] accepts a method and
    URL, what the network answers to a request sent with a given client,
    and the propagator installed by [initTracer]. *)
Record Network : Type := {
  newRequestError : string -> string -> option string;
  roundTrip : Client -> Request -> BackendResponse + string;
  Inject : Context -> Header -> Header
}.

Record State : Type := {
  clock : Clock;
  measurements : list Measurement;
  sent : list (Client * Request);  (* calls of client.Do, in order *)
  written : Response               (* c.Writer *)
}.

Definition with_clock (c : Clock) (s : State) : State :=
  {| clock := c; measurements := measurements s; sent := sent s;
     written := written s |}.

Definition with_measurement (m : Measurement) (s : State) : State :=
  {| clock := clock s; measurements := List.app (measurements s) [m];
     sent := sent s; written := written s |}.

Definition with_sent (c : Client) (r : Request) (s : State) : State :=
  {| clock := clock s; measurements := measurements s;
     sent := List.app (sent s) [(c, r)]; written := written s |}.

Definition with_written (w : Response) (s : State) : State :=
  {| clock := clock s; measurements := measurements s; sent := sent s;
     written := w |}.

Definition Now : M State Time :=
  c <- gets clock ;;
  modify (with_clock (advance c)) ;;;
  ret (read c).

Definition Since (t : Time) : M State Duration :=
  now <- Now ;; ret (Sub now t).

(** [c.JSON(code, obj)] and [c.Data(code, contentType, data)] *)
Definition JSON (code : Z) (obj : json) : M State unit :=
  modify (with_written {| status := code; body := JsonBody obj |}).

Definition Data (code : Z) (contentType data : string) : M State unit :=
  modify (with_written {| status := code; body := DataBody contentType data |}).

Section WithSurroundings.
Variable rt : Runtime.
Variable nw : Network.

(** [http.NewRequestWithContext(ctx, method, url, body)] *)
Definition NewRequestWithContext (ctx : Context)
    (method url body : string) : Request + string :=
  match newRequestError nw method url with
  | Some err => inr err
  | None => inl {| Method := method; URL := url; ReqBody := body;
                   ReqHeader := []; ReqCtx := ctx |}
  end.

(** [client.Do(req)] *)
Definition Do (client : Client) (req : Request)
    : M State (BackendResponse + string) :=
  modify (with_sent client req) ;;;
  ret (roundTrip nw client req).

Definition proxyRequest (c : Inbound) (serviceURL path : string)
    : M State unit :=
  let ctx := inCtx c in
  start <- Now ;;
  (* Build target URL *)
  let targetURL := "http://" ++ serviceURL ++ path in
  (* Create new request *)
  match NewRequestWithContext ctx (inMethod c) targetURL (inBody c) with
  | inr err =>
      JSON StatusInternalServerError
           (JObj [("error", JStr "Failed to create request")])
  | inl req =>
      (* Propagate headers *)
      let req := with_header (Inject nw ctx (ReqHeader req)) req in
      let req := with_header
                   (Set_ "Content-Type" "application/json" (ReqHeader req))
                   req in
      (* Execute request *)
      let client := {| Timeout := 10 * Second |} in
      r <- Do client req ;;
      match r with
      | inr err =>
          JSON StatusBadGateway
               (JObj [("error", JStr "Service unavailable")])
      | inl resp =>
          (* Record metrics *)
          d <- Since start ;;
          let duration := Milliseconds d in
          modify (with_measurement
            (Record_ "http.server.request_duration" duration
               [ ("service", AString serviceURL);
                 ("status_code", AInt (StatusCode resp)) ])) ;;;
          (* Copy response *)
          match RespBody resp with
          | inr err =>
              JSON StatusInternalServerError
                   (JObj [("error", JStr "Failed to read response")])
          | inl body =>
              Data (StatusCode resp) "application/json" body
          end
      end
  end.

(** [os.Getenv(name)] with the fallback of the route handlers. *)
Definition serviceAddress (name fallback : string) : string :=
  let service := Getenv rt name in
  if String.eqb service "" then fallback else service.

Definition handleHealthz (c : Inbound) : M State unit :=
  now <- Now ;;
  JSON StatusOK (JObj [ ("status", JStr "healthy");
                        ("service", JStr "api-gateway");
                        ("timestamp", JStr (Format rt RFC3339 now)) ]).

(** Proxy to jokes service *)
Definition handleJoke (c : Inbound) : M State unit :=
  proxyRequest c
    (serviceAddress "JOKES_SERVICE_URL"
                    "jokes-service.default.svc.cluster.local")
    "/api/v1/joke".

(** Proxy to user service *)
Definition handleFavorite (c : Inbound) : M State unit :=
  proxyRequest c
    (serviceAddress "USER_SERVICE_URL"
                    "user-service.default.svc.cluster.local")
    "/api/v1/favorite".

(** Proxy to analytics service *)
Definition handleStats (c : Inbound) : M State unit :=
  proxyRequest c
    (serviceAddress "ANALYTICS_SERVICE_URL"
                    "analytics-service.default.svc.cluster.local")
    "/api/v1/stats".

(** The routes registered in [main]. *)
Definition route (method path : string)
    : option (Inbound -> M State unit) :=
  if String.eqb method "GET" && String.eqb path "/healthz"
  then Some handleHealthz
  else if String.eqb method "GET" && String.eqb path "/api/v1/joke"
  then Some handleJoke
  else if String.eqb method "POST" && String.eqb path "/api/v1/favorite"
  then Some handleFavorite
  else if String.eqb method "GET" && String.eqb path "/api/v1/stats"
  then Some handleStats
  else None.

(** The three routes of [main] that proxy, with the method and path they
    are registered under and the address they forward to. *)
Inductive ProxiedRoute : Type := ToJokes | ToUser | ToAnalytics.

Definition routeMethod (r : ProxiedRoute) : string :=
  match r with
  | ToJokes => "GET"
  | ToUser => "POST"
  | ToAnalytics => "GET"
  end.

Definition routePath (r : ProxiedRoute) : string :=
  match r with
  | ToJokes => "/api/v1/joke"
  | ToUser => "/api/v1/favorite"
  | ToAnalytics => "/api/v1/stats"
  end.

Definition routeService (r : ProxiedRoute) : string :=
  match r with
  | ToJokes =>
      serviceAddress "JOKES_SERVICE_URL"
                     "jokes-service.default.svc.cluster.local"
  | ToUser =>
      serviceAddress "USER_SERVICE_URL"
                     "user-service.default.svc.cluster.local"
  | ToAnalytics =>
      serviceAddress "ANALYTICS_SERVICE_URL"
                     "analytics-service.default.svc.cluster.local"
  end.

(** Middleware for metrics, around the rest of the chain [next]. *)
Definition metricsMiddleware (c : Inbound) (next : M State unit)
    : M State unit :=
  start <- Now ;;
  next ;;;
  d <- Since start ;;
  let duration := Milliseconds d in
  code <- gets (fun s => status (written s)) ;;
  modify (with_measurement
    (Add "http.server.request_count" 1
       [ ("method", AString (inMethod c));
         ("path", AString (inPath c));
         ("status_code", AInt code) ])) ;;;
  modify (with_measurement
    (Record_ "http.server.request_duration" duration
       [ ("method", AString (inMethod c));
         ("path", AString (inPath c)) ])).

(** The path without its last character when that is a slash. *)
Fixpoint withoutSlash (path : string) : option string :=
  match path with
  | EmptyString => None
  | String a rest =>
      match rest with
      | EmptyString => if Ascii.eqb a (Ascii.ascii_of_nat 47) then Some EmptyString else None
      | String _ _ =>
          match withoutSlash rest with
          | Some shorter => Some (String a shorter)
          | None => None
          end
      end
  end.

(** gin's lookup of a path that is not registered under the method
    recommends a redirect when the path is that of a route of the method
    followed by a slash ([RedirectTrailingSlash] is on in [gin.Default()]). *)
Definition redirectsTrailingSlash (method path : string) : bool :=
  match withoutSlash path with
  | Some shorter =>
      match route method shorter with
      | Some _ => true
      | None => false
      end
  | None => false
  end.

(** gin's [redirectTrailingSlash]: [http.Redirect] to the path without the
    slash, 301 for a GET and 307 for any other method. *)
Definition redirectTrailingSlash (c : Inbound) : M State unit :=
  modify (with_written
    {| status := if String.eqb (inMethod c) "GET"
                 then StatusMovedPermanently
                 else StatusTemporaryRedirect;
       body := RedirectBody |}).

(** The engine serving one request: a registered route runs behind the
    middleware; a request one slash away from a route of its method is
    redirected by the engine itself, which runs no middleware; any other
    request runs the middleware alone with the status preset to 404, and gin
    then writes its not-found page. *)
Definition ServeHTTP (c : Inbound) : M State Response :=
  match route (inMethod c) (inPath c) with
  | Some handler =>
      modify (with_written {| status := StatusOK; body := NoBody |}) ;;;
      metricsMiddleware c (handler c) ;;;
      gets written
  | None =>
      if redirectsTrailingSlash (inMethod c) (inPath c)
      then
        redirectTrailingSlash c ;;;
        gets written
      else
        modify (with_written {| status := StatusNotFound; body := NoBody |}) ;;;
        metricsMiddleware c (ret tt) ;;;
        modify (with_written {| status := StatusNotFound;
                                body := DataBody "text/plain"
                                                 "404 page not found" |}) ;;;
        gets written
  end.

(** The proxied route a request falls on, if any. *)
Definition proxiedRoute (method path : string) : option ProxiedRoute :=
  if String.eqb method "GET" && String.eqb path "/api/v1/joke"
  then Some ToJokes
  else if String.eqb method "POST" && String.eqb path "/api/v1/favorite"
  then Some ToUser
  else if String.eqb method "GET" && String.eqb path "/api/v1/stats"
  then Some ToAnalytics
  else None.

(** The request [proxyRequest] hands to [client.Do] for a request on a
    proxied route, and the client it uses. *)
Definition outbound (r : ProxiedRoute) (c : Inbound) : Request :=
  {| Method := inMethod c;
     URL := "http://" ++ routeService r ++ routePath r;
     ReqBody := inBody c;
     ReqHeader := Set_ "Content-Type" "application/json"
                       (Inject nw (inCtx c) []);
     ReqCtx := inCtx c |}.

Definition proxyClient : Client := {| Timeout := 10 * Second |}.

(** The backend's response to a request, when the request falls on a
    proxied route, the outbound request can be built and the call
    returns a response. *)
Definition backendResponse (c : Inbound)
    : option (ProxiedRoute * BackendResponse) :=
  match proxiedRoute (inMethod c) (inPath c) with
  | None => None
  | Some r =>
      match newRequestError nw (inMethod c)
                            ("http://" ++ routeService r ++ routePath r) with
      | Some _ => None
      | None =>
          match roundTrip nw proxyClient (outbound r c) with
          | inl resp => Some (r, resp)
          | inr _ => None
          end
      end
  end.

End WithSurroundings.

Definition init (c : Clock) : State :=
  {| clock := c; measurements := []; sent := [];
     written := {| status := StatusOK; body := NoBody |} |}.

End Gateway.

(** * Sample surroundings

    A runtime, a random source and a clock on which the handlers can be
    run: the formatter only names the layout it was given, no environment
    variable is set, the clock advances 7 ms between readings. *)

Definition plainRuntime : Runtime :=
  {| Format := fun layout t => layout; Getenv := fun _ => "" |}.

Definition countingRand : Jokes.Rand :=
  {| Jokes.draw := fun k => nth k [5; 6; 7; 8] 9; Jokes.drawn := 0 |}.

Definition steadyClock : Clock :=
  {| reading := fun k =>
       nth k [ 1700000000000000000; 1700000000007000000;
               1700000000014000000; 1700000000021000000;
               1700000000028000000; 1700000000035000000 ]
             1700000000042000000;
     ticks := 0 |}.

(** As many track requests as an [int64] counter cannot count. *)
Definition manyTracks : nat := Z.to_nat (2 ^ 63).

(** Two stored favorites of two users, and the user service holding them. *)
Definition favAlice : User.Favorite :=
  {| User.ID := "20240101120000"; User.Joke := "x"; User.UserID := "u1";
     User.CreatedAt := 1704110400000000000 |}.
Definition favBob : User.Favorite :=
  {| User.ID := "20240101120001"; User.Joke := "y"; User.UserID := "u2";
     User.CreatedAt := 1704110401000000000 |}.
Definition twoFavorites : User.State :=
  {| User.favorites := mk_slice [favAlice; favBob];
     User.clock := steadyClock; User.measurements := [] |}.

(** Networks: one whose backends answer 200 and which propagates the trace
    context as a [Traceparent] header, one whose backends cannot be reached,
    one that refuses every URL, and one whose response bodies break off. *)
Definition traceparent (ctx : Gateway.Context) (h : Gateway.Header)
    : Gateway.Header :=
  match ctx with
  | Some sc =>
      Gateway.Set_ "Traceparent"
        ("00-" ++ Gateway.traceID sc ++ "-" ++ Gateway.spanID sc ++ "-01") h
  | None => h
  end.

Definition answering : Gateway.Network :=
  {| Gateway.newRequestError := fun _ _ => None;
     Gateway.roundTrip := fun _ req =>
       inl {| Gateway.StatusCode := 201;
              Gateway.RespBody := inl (Gateway.ReqBody req) |};
     Gateway.Inject := traceparent |}.

Definition unreachable : Gateway.Network :=
  {| Gateway.newRequestError := fun _ _ => None;
     Gateway.roundTrip := fun _ _ => inr "dial tcp: connection refused";
     Gateway.Inject := traceparent |}.

Definition refusing : Gateway.Network :=
  {| Gateway.newRequestError := fun _ _ => Some "invalid URL";
     Gateway.roundTrip := fun _ _ => inr "not reached";
     Gateway.Inject := traceparent |}.

Definition breaking : Gateway.Network :=
  {| Gateway.newRequestError := fun _ _ => None;
     Gateway.roundTrip := fun _ _ =>
       inl {| Gateway.StatusCode := 200;
              Gateway.RespBody := inr "unexpected EOF" |};
     Gateway.Inject := traceparent |}.

Definition incoming : Gateway.Context :=
  Some {| Gateway.traceID := "4bf92f3577b34da6a3ce929d0e0e4736";
          Gateway.spanID := "00f067aa0ba902b7";
          Gateway.sampled := true |}.

Definition postFavorite : Gateway.Inbound :=
  {| Gateway.inMethod := "POST"; Gateway.inPath := "/api/v1/favorite";
     Gateway.inBody := "{}"; Gateway.inCtx := incoming |}.

Definition getHealthz : Gateway.Inbound :=
  {| Gateway.inMethod := "GET"; Gateway.inPath := "/healthz";
     Gateway.inBody := ""; Gateway.inCtx := incoming |}.

(** A runtime in which the addresses of the peers are configured. *)
Definition notifyingRuntime : Runtime :=
  {| Format := fun layout t => layout;
     Getenv := fun name =>
       if String.eqb name "ANALYTICS_SERVICE_URL" then "analytics.internal:8082"
       else if String.eqb name "USER_SERVICE_URL" then "user.internal:8083"
       else "" |}.

(** A state of the jokes service whose joke list is empty. *)
Definition emptyJokes : Jokes.State :=
  {| Jokes.jokeList := []; Jokes.rand := countingRand;
     Jokes.clock := steadyClock; Jokes.measurements := [];
     Jokes.slept := []; Jokes.spawned := [] |}.

(** * Vocabulary of the gateway properties *)

(** The two measurements of the metrics middleware. *)
Definition countOf (c : Gateway.Inbound) (code : Z) : Measurement :=
  Add "http.server.request_count" 1
      [ ("method", AString (Gateway.inMethod c));
        ("path", AString (Gateway.inPath c));
        ("status_code", AInt code) ].

Definition latencyOf (c : Gateway.Inbound) (d : Z) : Measurement :=
  Record_ "http.server.request_duration" d
          [ ("method", AString (Gateway.inMethod c));
            ("path", AString (Gateway.inPath c)) ].

(** The measurement of [proxyRequest]. *)
Definition proxyLatencyOf (service : string) (code d : Z) : Measurement :=
  Record_ "http.server.request_duration" d
          [ ("service", AString service); ("status_code", AInt code) ].

Definition errorBody (msg : string) : Body := JsonBody (JObj [("error", JStr msg)]).

(** The requests that are one slash away from a route registered under
    their method; the router redirects them itself. *)
Definition slashRedirected (c : Gateway.Inbound) : bool :=
  (String.eqb (Gateway.inMethod c) "GET" &&
   (String.eqb (Gateway.inPath c) "/healthz/" ||
    String.eqb (Gateway.inPath c) "/api/v1/joke/" ||
    String.eqb (Gateway.inPath c) "/api/v1/stats/")) ||
  (String.eqb (Gateway.inMethod c) "POST" &&
   String.eqb (Gateway.inPath c) "/api/v1/favorite/").

(** The address configured for the backend of a route: the value of the
    route's environment variable, or the cluster name of the backend when
    the variable is empty or not set. *)
Definition configuredAddress (rt : Runtime) (r : Gateway.ProxiedRoute) : string :=
  match r with
  | Gateway.ToJokes =>
      if String.eqb (Getenv rt "JOKES_SERVICE_URL") ""
      then "jokes-service.default.svc.cluster.local"
      else Getenv rt "JOKES_SERVICE_URL"
  | Gateway.ToUser =>
      if String.eqb (Getenv rt "USER_SERVICE_URL") ""
      then "user-service.default.svc.cluster.local"
      else Getenv rt "USER_SERVICE_URL"
  | Gateway.ToAnalytics =>
      if String.eqb (Getenv rt "ANALYTICS_SERVICE_URL") ""
      then "analytics-service.default.svc.cluster.local"
      else Getenv rt "ANALYTICS_SERVICE_URL"
  end.

(** Requests with a slash too many. *)
Definition getHealthzSlash : Gateway.Inbound :=
  {| Gateway.inMethod := "GET"; Gateway.inPath := "/healthz/";
     Gateway.inBody := ""; Gateway.inCtx := None |}.

Definition postFavoriteSlash : Gateway.Inbound :=
  {| Gateway.inMethod := "POST"; Gateway.inPath := "/api/v1/favorite/";
     Gateway.inBody := "{}"; Gateway.inCtx := None |}.

(** * Vocabulary of the further properties *)

(** A clock that never goes backwards. *)
Definition monotone (c : Clock) : Prop :=
  forall i j : nat, (i <= j)%nat -> reading c i <= reading c j.

(** A clock that advances one nanosecond per reading. *)
Definition nanoClock : Clock := {| reading := fun k => Z.of_nat k; ticks := 0 |}.

(** The two requests the user service routes to a handler working on the
    favorites, and the service answering a sequence of them in turn. *)
Inductive UserCall : Type :=
  | PostFavorite (b : User.RequestBody)
  | GetFavorites (query : list (string * string)).

Definition userServe (rt : Runtime) (call : UserCall) : M User.State Response :=
  match call with
  | PostFavorite b => User.handleFavorite rt b
  | GetFavorites query => User.handleFavorites rt query
  end.

Fixpoint userRun (rt : Runtime) (calls : list UserCall) (s : User.State)
    : Result (list Response * User.State) :=
  match calls with
  | [] => Ok ([], s)
  | call :: rest =>
      match userServe rt call s with
      | Ok (resp, s') =>
          match userRun rt rest s' with
          | Ok (resps, s'') => Ok (resp :: resps, s'')
          | Panic p => Panic p
          end
      | Panic p => Panic p
      end
  end.

(** The requests of a sequence of calls that pass the binding, in order. *)
Fixpoint boundRequests (calls : list UserCall) : list User.FavoriteRequest :=
  match calls with
  | [] => []
  | PostFavorite b :: rest =>
      match User.ShouldBindJSON b with
      | inl req => req :: boundRequests rest
      | inr _ => boundRequests rest
      end
  | GetFavorites _ :: rest => boundRequests rest
  end.

(** The test of the loop of [getFavorites]. *)
Definition wanted (userID : string) (fav : User.Favorite) : bool :=
  String.eqb userID "" || String.eqb (User.UserID fav) userID.

(** A request with the method of another route. *)
Definition postJoke : Gateway.Inbound :=
  {| Gateway.inMethod := "POST"; Gateway.inPath := "/api/v1/joke";
     Gateway.inBody := ""; Gateway.inCtx := None |}.

(** The increments handed to a counter. *)
Definition is_add (instrument : string) (m : Measurement) : bool :=
  match m with
  | Add i _ _ => String.eqb i instrument
  | Record_ _ _ _ => false
  end.

(** The gateway serving a sequence of requests in turn. *)
Fixpoint gatewayRun (rt : Runtime) (nw : Gateway.Network)
    (reqs : list Gateway.Inbound) (s : Gateway.State)
    : Result (list Response * Gateway.State) :=
  match reqs with
  | [] => Ok ([], s)
  | c :: rest =>
      match Gateway.ServeHTTP rt nw c s with
      | Ok (resp, s') =>
          match gatewayRun rt nw rest s' with
          | Ok (resps, s'') => Ok (resp :: resps, s'')
          | Panic p => Panic p
          end
      | Panic p => Panic p
      end
  end.

(** * Properties *)

Ltac run := cbv [bind ret gets modify lift panic] in *; cbn [fst snd] in *.

(** Closes a goal on the measurements logged by a run. *)
Ltac log :=
  cbn [Gateway.measurements Gateway.with_measurement Gateway.with_written
       Gateway.with_clock Gateway.with_sent Gateway.written Gateway.clock
       Gateway.sent status body];
  rewrite <- ?app_assoc; reflexivity.

(** ** Jokes service *)

Lemma index_in_range {A} (l : list A) (i : Z) :
  0 <= i < Z.of_nat (List.length l) ->
  exists x, index l i = Ok x /\ In x l.
Proof.
  intros Hi. unfold index.
  destruct (Z.leb_spec 0 i); [|lia].
  destruct (Z.ltb_spec i (Z.of_nat (List.length l))); [|lia].
  cbn [andb].
  destruct (nth_error l (Z.to_nat i)) as [x|] eqn:E.
  - exists x. split; [reflexivity|]. eapply nth_error_In; eassumption.
  - apply nth_error_None in E. lia.
Qed.

Lemma Intn_positive (n : Z) (s : Jokes.State) :
  0 < n ->
  exists v s',
    Jokes.Intn n s = Ok (v, s') /\ 0 <= v < n /\
    Jokes.jokeList s' = Jokes.jokeList s /\
    Jokes.measurements s' = Jokes.measurements s /\
    Jokes.spawned s' = Jokes.spawned s.
Proof.
  intros Hn. unfold Jokes.Intn.
  destruct (Z.leb_spec n 0); [lia|]. run.
  eexists _, _. split; [reflexivity|].
  split; [apply Z.mod_pos_bound; lia|]. cbn. auto.
Qed.

Lemma Intn_nonpositive (n : Z) (s : Jokes.State) :
  n <= 0 -> Jokes.Intn n s = Panic IntnInvalidArgument.
Proof.
  intros Hn. unfold Jokes.Intn.
  destruct (Z.leb_spec n 0); [reflexivity|lia].
Qed.

(** With a non-empty list, [getRandomJoke] returns one of its entries,
    leaves the list alone and records one latency measurement. *)
Lemma getRandomJoke_nonempty (s : Jokes.State) :
  Jokes.jokeList s <> [] ->
  exists joke s' d,
    Jokes.getRandomJoke s = Ok (joke, s') /\
    In joke (Jokes.jokeList s) /\
    Jokes.jokeList s' = Jokes.jokeList s /\
    Jokes.measurements s' =
      List.app (Jokes.measurements s) [Record_ "jokes.latency" d []] /\
    Jokes.spawned s' = Jokes.spawned s.
Proof.
  intros Hne. unfold Jokes.getRandomJoke, Jokes.Since, Jokes.Now, Jokes.Sleep.
  run.
  destruct (Intn_positive 50 (Jokes.with_clock (advance (Jokes.clock s)) s))
    as (n & s1 & E1 & _ & L1 & M1 & P1); [lia|].
  rewrite E1.
  set (s2 := Jokes.with_sleep _ s1).
  assert (Hlen : 0 < Z.of_nat (List.length (Jokes.jokeList s2))).
  { cbn. rewrite L1. cbn. destruct (Jokes.jokeList s); [congruence|cbn; lia]. }
  destruct (Intn_positive (Z.of_nat (List.length (Jokes.jokeList s2))) s2 Hlen)
    as (i & s3 & E3 & Hi & L3 & M3 & P3).
  rewrite E3.
  destruct (index_in_range (Jokes.jokeList s2) i Hi) as (joke & Ej & Hin).
  rewrite Ej.
  eexists joke, _, _. split; [reflexivity|].
  assert (L2 : Jokes.jokeList s2 = Jokes.jokeList s) by (cbn; rewrite L1; reflexivity).
  rewrite L2 in Hin. split; [exact Hin|]. cbn.
  rewrite L3, M3, P3. cbn. rewrite L1, M1, P1. cbn. auto.
Qed.

Example handleJoke_runs :
  exists s',
    Jokes.handleJoke plainRuntime (Jokes.init countingRand steadyClock) =
    Ok ({| status := 200;
           body := JsonBody (JObj [
             ("joke", JStr "Why did the programmer quit? Because they didn't get arrays.");
             ("service", JStr "jokes-service");
             ("timestamp", JStr RFC3339) ]) |}, s') /\
    Jokes.measurements s' =
      [Record_ "jokes.latency" 7 []; Add "jokes.served" 1 []] /\
    Jokes.slept s' = [5 * Millisecond] /\
    Jokes.spawned s' =
      [{| Jokes.g_analyticsService := "analytics-service.default.svc.cluster.local";
          Jokes.g_joke := "Why did the programmer quit? Because they didn't get arrays." |}].
Proof. eexists. vm_compute. repeat split. Qed.

(** C1. Every answer to [GET /api/v1/joke] of the jokes service is a 200
    whose [joke] field is an entry of the fixed list [jokes]; the handler
    leaves the list as it was loaded, so this holds for every request the
    process serves. *)
Theorem C1_joke_is_member_of_fixed_list (rt : Runtime) (s : Jokes.State) :
  Jokes.jokeList s = Jokes.jokes ->
  exists joke timestamp s',
    Jokes.handleJoke rt s =
      Ok ({| status := StatusOK;
             body := JsonBody (JObj [ ("joke", JStr joke);
                                      ("service", JStr "jokes-service");
                                      ("timestamp", JStr timestamp) ]) |}, s') /\
    In joke Jokes.jokes /\
    Jokes.jokeList s' = Jokes.jokes.
Proof.
  intros Hlist.
  destruct (getRandomJoke_nonempty s) as (joke & s1 & d & E & Hin & L & _).
  { rewrite Hlist. discriminate. }
  unfold Jokes.handleJoke, Jokes.notifyAnalytics, Jokes.Now. run.
  rewrite E. eexists joke, _, _. split; [reflexivity|].
  split; [rewrite <- Hlist; exact Hin|].
  cbn. rewrite L. exact Hlist.
Qed.

Lemma C1_witness :
  Jokes.jokeList (Jokes.init countingRand steadyClock) = Jokes.jokes /\
  exists joke timestamp s',
    Jokes.handleJoke plainRuntime (Jokes.init countingRand steadyClock) =
      Ok ({| status := StatusOK;
             body := JsonBody (JObj [ ("joke", JStr joke);
                                      ("service", JStr "jokes-service");
                                      ("timestamp", JStr timestamp) ]) |}, s') /\
    In joke Jokes.jokes /\
    Jokes.jokeList s' = Jokes.jokes.
Proof.
  split; [reflexivity|].
  apply (C1_joke_is_member_of_fixed_list plainRuntime
           (Jokes.init countingRand steadyClock)).
  reflexivity.
Defined.

(** C8. [getRandomJoke] has no guard on the list.  On an empty list the
    selection of the random index fails, whatever the random source holds:
    [rand.Intn] gets the bound 0, which is outside the range it accepts, and
    panics before any entry is read.  On a non-empty list, as the literal
    [jokes] is, the call returns an entry of the list and never panics. *)
Theorem C8_selection_faults_only_on_empty_list (s : Jokes.State) :
  (Jokes.jokeList s = [] ->
     Jokes.getRandomJoke s = Panic IntnInvalidArgument) /\
  (Jokes.jokeList s <> [] ->
     exists joke s',
       Jokes.getRandomJoke s = Ok (joke, s') /\ In joke (Jokes.jokeList s)).
Proof.
  split.
  - intros Hempty.
    unfold Jokes.getRandomJoke, Jokes.Since, Jokes.Now, Jokes.Sleep. run.
    destruct (Intn_positive 50 (Jokes.with_clock (advance (Jokes.clock s)) s))
      as (n & s1 & E1 & _ & L1 & _); [lia|].
    rewrite E1.
    rewrite Intn_nonpositive; [reflexivity|].
    cbn. rewrite L1. cbn. rewrite Hempty. cbn. lia.
  - intros Hne.
    destruct (getRandomJoke_nonempty s Hne) as (joke & s' & d & E & Hin & _).
    eauto.
Qed.

Lemma C8_witness :
  (Jokes.jokeList emptyJokes = [] /\
   Jokes.getRandomJoke emptyJokes = Panic IntnInvalidArgument) /\
  (Jokes.jokeList (Jokes.init countingRand steadyClock) <> [] /\
   exists joke s',
     Jokes.getRandomJoke (Jokes.init countingRand steadyClock) = Ok (joke, s') /\
     In joke (Jokes.jokeList (Jokes.init countingRand steadyClock))).
Proof.
  split.
  - split; [reflexivity|].
    apply (proj1 (C8_selection_faults_only_on_empty_list emptyJokes)).
    reflexivity.
  - split; [discriminate|].
    apply (proj2 (C8_selection_faults_only_on_empty_list
                    (Jokes.init countingRand steadyClock))).
    discriminate.
Defined.

(** ** Analytics service *)

Lemma wrap64_id (z : Z) : minInt64 <= z <= maxInt64 -> wrap64 z = z.
Proof.
  unfold wrap64, minInt64, maxInt64. intros H.
  rewrite Z.mod_small; lia.
Qed.

Lemma wrap64_incr (z : Z) : wrap64 (wrap64 z + 1) = wrap64 (z + 1).
Proof.
  unfold wrap64.
  replace ((z + 2 ^ 63) mod 2 ^ 64 - 2 ^ 63 + 1 + 2 ^ 63)
    with ((z + 2 ^ 63) mod 2 ^ 64 + 1) by lia.
  replace (z + 1 + 2 ^ 63) with ((z + 2 ^ 63) + 1) by lia.
  rewrite Z.add_mod_idemp_l by lia. reflexivity.
Qed.

(** What one track request does to the state. *)
Lemma handleTrack_runs (s : Analytics.State) :
  Analytics.handleTrack s =
  Ok ({| status := StatusOK;
         body := JsonBody (JObj [("status", JStr "tracked")]) |},
      {| Analytics.stats :=
           {| Analytics.requests := incr64 (Analytics.requests (Analytics.stats s));
              Analytics.totalJokes := incr64 (Analytics.totalJokes (Analytics.stats s));
              Analytics.lastUpdate := read (Analytics.clock s) |};
         Analytics.clock := advance (Analytics.clock s);
         Analytics.measurements :=
           List.app (Analytics.measurements s) [Add "analytics.tracks" 1 []] |}).
Proof. reflexivity. Qed.

(** What a stats request answers; it leaves the counters alone. *)
Lemma handleStats_runs (rt : Runtime) (s : Analytics.State) :
  Analytics.handleStats rt s =
  Ok ({| status := StatusOK;
         body := JsonBody (JObj [
           ("total_requests", JInt (Analytics.requests (Analytics.stats s)));
           ("total_jokes", JInt (Analytics.totalJokes (Analytics.stats s)));
           ("last_update",
            JStr (Format rt RFC3339 (Analytics.lastUpdate (Analytics.stats s))));
           ("uptime_seconds",
            JFloat (Seconds (Sub (read (Analytics.clock s))
                                 (Analytics.lastUpdate (Analytics.stats s))))) ]) |},
      Analytics.with_clock (advance (Analytics.clock s)) s).
Proof. reflexivity. Qed.

(** [n] track requests always complete; each counter has been incremented
    [n] times. *)
Lemma tracks_counts (n : nat) (s : Analytics.State) :
  exists s',
    Analytics.tracks n s = Ok s' /\
    Analytics.requests (Analytics.stats s') =
      Nat.iter n incr64 (Analytics.requests (Analytics.stats s)) /\
    Analytics.totalJokes (Analytics.stats s') =
      Nat.iter n incr64 (Analytics.totalJokes (Analytics.stats s)).
Proof.
  revert s. induction n as [|n IH]; intros s.
  - exists s. repeat split.
  - cbn [Analytics.tracks]. rewrite handleTrack_runs.
    destruct (IH {| Analytics.stats :=
           {| Analytics.requests := incr64 (Analytics.requests (Analytics.stats s));
              Analytics.totalJokes := incr64 (Analytics.totalJokes (Analytics.stats s));
              Analytics.lastUpdate := read (Analytics.clock s) |};
         Analytics.clock := advance (Analytics.clock s);
         Analytics.measurements :=
           List.app (Analytics.measurements s) [Add "analytics.tracks" 1 []] |})
      as (s' & E & R & T).
    exists s'. split; [exact E|].
    rewrite R, T. cbn [Analytics.stats Analytics.requests Analytics.totalJokes].
    rewrite <- !Nat.iter_succ_r. split; reflexivity.
Qed.

Lemma iter_incr64 (n : nat) (x : Z) :
  minInt64 <= x <= maxInt64 ->
  Nat.iter n incr64 x = wrap64 (x + Z.of_nat n).
Proof.
  intros Hx. induction n as [|n IH].
  - change (Nat.iter 0 incr64 x) with x.
    rewrite Z.add_0_r, wrap64_id; [reflexivity|exact Hx].
  - rewrite Nat.iter_succ, IH. unfold incr64. rewrite wrap64_incr.
    f_equal. lia.
Qed.

(** The counters after [n] track requests on a fresh process. *)
Lemma tracks_from_init (c : Clock) (n : nat) :
  exists s,
    Analytics.tracks n (Analytics.init c) = Ok s /\
    Analytics.requests (Analytics.stats s) = wrap64 (Z.of_nat n) /\
    Analytics.totalJokes (Analytics.stats s) = wrap64 (Z.of_nat n).
Proof.
  destruct (tracks_counts n (Analytics.init c)) as (s & E & R & T).
  exists s. split; [exact E|].
  rewrite R, T. cbn [Analytics.init Analytics.stats Analytics.requests Analytics.totalJokes].
  rewrite iter_incr64 by (unfold minInt64, maxInt64; lia).
  split; reflexivity.
Qed.

Lemma reachable_counters_agree (rt : Runtime) (c : Clock) (s : Analytics.State) :
  Analytics.reachable rt c s ->
  Analytics.requests (Analytics.stats s) = Analytics.totalJokes (Analytics.stats s).
Proof.
  induction 1 as [|s r s' _ IH E|s r s' _ IH E].
  - reflexivity.
  - rewrite handleTrack_runs in E. inversion E; subst. cbn. rewrite IH. reflexivity.
  - rewrite handleStats_runs in E. inversion E; subst. exact IH.
Qed.

(** C2 (as amended). In every state the analytics service can reach, the
    two counters are equal: a track request increments both by one and no
    other handler writes them.  After [n] track requests on a fresh process,
    with [n] below [2^63], a stats request reports [n] for both
    [total_requests] and [total_jokes]. *)
Theorem C2_counters_agree_and_count_tracks (rt : Runtime) (c : Clock) :
  (forall s, Analytics.reachable rt c s ->
     Analytics.requests (Analytics.stats s) =
     Analytics.totalJokes (Analytics.stats s)) /\
  (forall n : nat, Z.of_nat n < 2 ^ 63 ->
     exists s resp s',
       Analytics.tracks n (Analytics.init c) = Ok s /\
       Analytics.handleStats rt s = Ok (resp, s') /\
       status resp = StatusOK /\
       exists j, body resp = JsonBody j /\
         get "total_requests" j = Some (JInt (Z.of_nat n)) /\
         get "total_jokes" j = Some (JInt (Z.of_nat n))).
Proof.
  split; [intros s; apply reachable_counters_agree|].
  intros n Hn.
  destruct (tracks_from_init c n) as (s & E & R & T).
  rewrite wrap64_id in R, T by (unfold minInt64, maxInt64; lia).
  exists s. eexists _, _. split; [exact E|].
  split; [apply handleStats_runs|].
  split; [reflexivity|].
  eexists. split; [reflexivity|].
  cbn. rewrite R, T. split; reflexivity.
Qed.

Lemma C2_witness :
  Z.of_nat 3 < 2 ^ 63 /\
  exists s resp s',
    Analytics.tracks 3 (Analytics.init steadyClock) = Ok s /\
    Analytics.handleStats plainRuntime s = Ok (resp, s') /\
    status resp = StatusOK /\
    exists j, body resp = JsonBody j /\
      get "total_requests" j = Some (JInt (Z.of_nat 3)) /\
      get "total_jokes" j = Some (JInt (Z.of_nat 3)).
Proof.
  split; [reflexivity|].
  apply (proj2 (C2_counters_agree_and_count_tracks plainRuntime steadyClock) 3%nat).
  reflexivity.
Defined.

(** C2 as the specification words it fails once the [int64] counters wrap:
    after [2^63] track requests a stats request reports [-2^63], not the
    number of requests. *)
Lemma C2_counterexample_int64_wraps :
  exists s resp s',
    Analytics.tracks manyTracks (Analytics.init steadyClock) = Ok s /\
    Analytics.handleStats plainRuntime s = Ok (resp, s') /\
    exists j, body resp = JsonBody j /\
      get "total_requests" j = Some (JInt (- 9223372036854775808)) /\
      get "total_jokes" j = Some (JInt (- 9223372036854775808)) /\
      Z.of_nat manyTracks = 9223372036854775808.
Proof.
  assert (Hn : Z.of_nat manyTracks = 9223372036854775808).
  { unfold manyTracks. rewrite Z2Nat.id by lia. reflexivity. }
  generalize dependent manyTracks. intros n Hn.
  destruct (tracks_from_init steadyClock n) as (s & E & R & T).
  rewrite Hn in R, T.
  exists s. eexists _, _. split; [exact E|].
  split; [apply handleStats_runs|].
  eexists. split; [reflexivity|].
  cbn [get field String.eqb Ascii.eqb Bool.eqb]. rewrite R, T.
  repeat split. exact Hn.
Qed.

(** C6. A stats request answers 200 with the stored [requests] and
    [totalJokes], the stored [lastUpdate] in RFC 3339 layout, and as
    [uptime_seconds] the seconds elapsed between the clock reading of the
    request and the stored [lastUpdate]; the counters are left as they were.
    A track request stores its own clock reading as [lastUpdate], so after
    it the uptime is counted from that track request, whatever the state of
    the process was before. *)
Theorem C6_uptime_is_time_since_last_update (rt : Runtime) (s : Analytics.State) :
  (exists s',
     Analytics.handleStats rt s =
       Ok ({| status := StatusOK;
              body := JsonBody (JObj [
                ("total_requests", JInt (Analytics.requests (Analytics.stats s)));
                ("total_jokes", JInt (Analytics.totalJokes (Analytics.stats s)));
                ("last_update",
                 JStr (Format rt RFC3339 (Analytics.lastUpdate (Analytics.stats s))));
                ("uptime_seconds",
                 JFloat (Seconds (Sub (read (Analytics.clock s))
                                      (Analytics.lastUpdate (Analytics.stats s))))) ]) |},
           s') /\
     Analytics.stats s' = Analytics.stats s) /\
  (exists r s1,
     Analytics.handleTrack s = Ok (r, s1) /\
     Analytics.lastUpdate (Analytics.stats s1) = read (Analytics.clock s) /\
     exists resp s2 j,
       Analytics.handleStats rt s1 = Ok (resp, s2) /\
       body resp = JsonBody j /\
       get "uptime_seconds" j =
         Some (JFloat (Seconds (Sub (read (Analytics.clock s1))
                                    (read (Analytics.clock s)))))).
Proof.
  split.
  - eexists. split; [apply handleStats_runs|reflexivity].
  - eexists _, _. split; [apply handleTrack_runs|].
    split; [reflexivity|].
    eexists _, _, _. split; [apply handleStats_runs|].
    split; reflexivity.
Qed.

Example stats_after_one_track :
  exists s1 s2,
    Analytics.handleTrack (Analytics.init steadyClock)
      = Ok ({| status := 200; body := JsonBody (JObj [("status", JStr "tracked")]) |}, s1) /\
    Analytics.handleStats plainRuntime s1 =
      Ok ({| status := 200;
             body := JsonBody (JObj [
               ("total_requests", JInt 1);
               ("total_jokes", JInt 1);
               ("last_update", JStr RFC3339);
               ("uptime_seconds",
                JFloat {| whole_sec := 0; frac_nsec := 7000000 |}) ]) |}, s2).
Proof. eexists _, _. split; reflexivity. Qed.

(** ** User service *)

(** The loop of [getFavorites] keeps, in order, the entries that pass its
    test, after what was collected before. *)
Lemma collect_elems (userID : string) (l : list User.Favorite)
    (acc : slice User.Favorite) :
  elems (fold_left (User.collect userID) l acc) =
  List.app (elems acc)
    (filter (fun fav => String.eqb userID "" || String.eqb (User.UserID fav) userID) l).
Proof.
  revert acc. induction l as [|fav l IH]; intros acc.
  - cbn. rewrite app_nil_r. reflexivity.
  - cbn [fold_left filter]. rewrite IH. unfold User.collect.
    destruct (String.eqb userID "" || String.eqb (User.UserID fav) userID).
    + cbn [append elems]. rewrite <- app_assoc. reflexivity.
    + reflexivity.
Qed.

(** The collected slice stays nil as long as no entry passes the test. *)
Lemma collect_nil (userID : string) (l : list User.Favorite) :
  forallb (fun fav => negb (String.eqb userID "" || String.eqb (User.UserID fav) userID)) l
    = true ->
  fold_left (User.collect userID) l nil_slice = nil_slice.
Proof.
  induction l as [|fav l IH]; intros H.
  - reflexivity.
  - cbn [forallb] in H. apply andb_true_iff in H as [Hfav Hl].
    cbn [fold_left]. unfold User.collect at 2.
    apply negb_true_iff in Hfav. rewrite Hfav. apply IH, Hl.
Qed.

Lemma filter_all {A} (l : list A) : filter (fun _ => true) l = l.
Proof. induction l as [|x l IH]; cbn; [|rewrite IH]; reflexivity. Qed.

(** A body without a non-empty [joke] or without a non-empty [user_id]
    fails validation. *)
Lemma validate_rejects (joke user_id : option string) :
  joke = None \/ joke = Some "" \/ user_id = None \/ user_id = Some "" ->
  exists msg, User.validate (User.decode joke user_id) = Some msg.
Proof.
  intros H. unfold User.validate, User.decode.
  cbn [User.reqJoke User.reqUserID].
  destruct H as [-> | [-> | [-> | ->]]].
  - cbn. destruct (String.eqb _ ""); eexists; reflexivity.
  - cbn. destruct (String.eqb _ ""); eexists; reflexivity.
  - destruct (String.eqb _ ""); eexists; reflexivity.
  - destruct (String.eqb _ ""); eexists; reflexivity.
Qed.

(** C3. A [POST /api/v1/favorite] whose body lacks [joke] or [user_id], or
    binds either to the empty string, is answered 400 with the validator's
    message under [error]; the state of the service is left as it was: the
    favorites sequence is unchanged and nothing is added to the counter. *)
Theorem C3_invalid_favorite_is_rejected (rt : Runtime) (s : User.State)
    (joke user_id : option string) :
  joke = None \/ joke = Some "" \/ user_id = None \/ user_id = Some "" ->
  exists msg,
    User.validate (User.decode joke user_id) = Some msg /\
    User.handleFavorite rt (User.Object joke user_id) s =
      Ok ({| status := StatusBadRequest;
             body := JsonBody (JObj [("error", JStr msg)]) |}, s).
Proof.
  intros H. destruct (validate_rejects joke user_id H) as (msg & E).
  exists msg. split; [exact E|].
  unfold User.handleFavorite, User.ShouldBindJSON. rewrite E. reflexivity.
Qed.

Lemma C3_witness :
  (@None string = None \/ None = Some "" \/ Some "u1" = None \/ Some "u1" = Some "") /\
  exists msg,
    User.validate (User.decode None (Some "u1")) = Some msg /\
    User.handleFavorite plainRuntime (User.Object None (Some "u1")) twoFavorites =
      Ok ({| status := StatusBadRequest;
             body := JsonBody (JObj [("error", JStr msg)]) |}, twoFavorites).
Proof.
  split; [left; reflexivity|].
  apply (C3_invalid_favorite_is_rejected plainRuntime twoFavorites None (Some "u1")).
  left; reflexivity.
Defined.

Example favorite_without_user_id :
  User.handleFavorite plainRuntime (User.Object (Some "x") (Some "")) twoFavorites =
  Ok ({| status := 400;
         body := JsonBody (JObj [("error",
           JStr "Key: 'FavoriteRequest.UserID' Error:Field validation for 'UserID' failed on the 'required' tag")]) |},
      twoFavorites).
Proof. reflexivity. Qed.

Example favorite_accepted :
  exists s',
    User.handleFavorite plainRuntime (User.Object (Some "x") (Some "u1"))
                        (User.init steadyClock) =
    Ok ({| status := 201;
           body := JsonBody (JObj [ ("id", JStr "20060102150405");
                                    ("joke", JStr "x");
                                    ("user_id", JStr "u1");
                                    ("created_at", JStr RFC3339Nano) ]) |}, s') /\
    User.favorites s' =
      mk_slice [{| User.ID := "20060102150405"; User.Joke := "x";
                   User.UserID := "u1";
                   User.CreatedAt := 1700000000007000000 |}] /\
    User.measurements s' = [Add "user.favorites.added" 1 []].
Proof. eexists. repeat split. Qed.

(** C5. [GET /api/v1/favorites?user_id=X] answers 200 and leaves the state
    alone.  The records it returns are, in the order of the stored sequence,
    all the stored favorites when X is empty or absent, and those whose
    [UserID] is X otherwise; [count] is the number of records returned.  The
    stored sequence is in order of insertion: [addFavorite] puts the new
    record after all the others. *)
Theorem C5_favorites_are_filtered_in_order (rt : Runtime) (s : User.State)
    (query : list (string * string)) :
  (exists favs,
     User.handleFavorites rt query s =
       Ok ({| status := StatusOK;
              body := JsonBody (JObj [
                ("favorites", User.marshalFavorites rt favs);
                ("count", JInt (Z.of_nat (List.length (elems favs)))) ]) |}, s) /\
     elems favs =
       if String.eqb (Query query "user_id") ""
       then elems (User.favorites s)
       else filter (fun fav => String.eqb (User.UserID fav) (Query query "user_id"))
                   (elems (User.favorites s))) /\
  (forall req, exists fav s',
     User.addFavorite rt req s = Ok (fav, s') /\
     User.Joke fav = User.reqJoke req /\
     User.UserID fav = User.reqUserID req /\
     elems (User.favorites s') = List.app (elems (User.favorites s)) [fav]).
Proof.
  split.
  - eexists. split; [reflexivity|].
    rewrite collect_elems. cbn [elems app].
    destruct (String.eqb (Query query "user_id") "").
    + cbn [orb]. apply filter_all.
    + reflexivity.
  - intros req. unfold User.addFavorite, User.Now. run.
    eexists _, _. split; [reflexivity|]. repeat split.
Qed.

Example favorites_of_u2 :
  User.handleFavorites plainRuntime [("user_id", "u2")] twoFavorites =
  Ok ({| status := 200;
         body := JsonBody (JObj [
           ("favorites", JArr [JObj [ ("id", JStr "20240101120001");
                                      ("joke", JStr "y");
                                      ("user_id", JStr "u2");
                                      ("created_at", JStr RFC3339Nano) ]]);
           ("count", JInt 1) ]) |}, twoFavorites).
Proof. reflexivity. Qed.

(** C10. When no stored favorite passes the filter of the query, which
    includes an empty stored sequence, the answer is 200 with [count] 0 and
    [favorites] null: the slice the loop appends to is never allocated. *)
Theorem C10_no_match_gives_null (rt : Runtime) (s : User.State)
    (query : list (string * string)) :
  forallb (fun fav => negb (String.eqb (Query query "user_id") "" ||
                            String.eqb (User.UserID fav) (Query query "user_id")))
          (elems (User.favorites s)) = true ->
  User.handleFavorites rt query s =
    Ok ({| status := StatusOK;
           body := JsonBody (JObj [ ("favorites", JNull);
                                    ("count", JInt 0) ]) |}, s).
Proof.
  intros H. unfold User.handleFavorites, User.getFavorites. run.
  rewrite (collect_nil _ _ H). reflexivity.
Qed.

Lemma C10_witness :
  (forallb (fun fav => negb (String.eqb (Query [] "user_id") "" ||
                             String.eqb (User.UserID fav) (Query [] "user_id")))
           (elems (User.favorites (User.init steadyClock))) = true /\
   User.handleFavorites plainRuntime [] (User.init steadyClock) =
     Ok ({| status := StatusOK;
            body := JsonBody (JObj [ ("favorites", JNull);
                                     ("count", JInt 0) ]) |},
         User.init steadyClock)) /\
  (forallb (fun fav => negb (String.eqb (Query [("user_id", "u3")] "user_id") "" ||
                             String.eqb (User.UserID fav)
                                        (Query [("user_id", "u3")] "user_id")))
           (elems (User.favorites twoFavorites)) = true /\
   User.handleFavorites plainRuntime [("user_id", "u3")] twoFavorites =
     Ok ({| status := StatusOK;
            body := JsonBody (JObj [ ("favorites", JNull);
                                     ("count", JInt 0) ]) |},
         twoFavorites)).
Proof.
  split.
  - split; [reflexivity|].
    apply (C10_no_match_gives_null plainRuntime (User.init steadyClock) []).
    reflexivity.
  - split; [reflexivity|].
    apply (C10_no_match_gives_null plainRuntime twoFavorites [("user_id", "u3")]).
    reflexivity.
Defined.

(** ** API gateway *)

Example favorite_is_proxied :
  exists s',
    Gateway.ServeHTTP plainRuntime answering postFavorite (Gateway.init steadyClock) =
      Ok ({| status := 201; body := DataBody "application/json" "{}" |}, s') /\
    Gateway.sent s' =
      [({| Gateway.Timeout := 10000000000 |},
        {| Gateway.Method := "POST";
           Gateway.URL := "http://user-service.default.svc.cluster.local/api/v1/favorite";
           Gateway.ReqBody := "{}";
           Gateway.ReqHeader :=
             [ ("Content-Type", "application/json");
               ("Traceparent",
                "00-4bf92f3577b34da6a3ce929d0e0e4736-00f067aa0ba902b7-01") ];
           Gateway.ReqCtx := incoming |})] /\
    Gateway.measurements s' =
      [ Record_ "http.server.request_duration" 7
          [ ("service", AString "user-service.default.svc.cluster.local");
            ("status_code", AInt 201) ];
        Add "http.server.request_count" 1
          [ ("method", AString "POST"); ("path", AString "/api/v1/favorite");
            ("status_code", AInt 201) ];
        Record_ "http.server.request_duration" 21
          [ ("method", AString "POST"); ("path", AString "/api/v1/favorite") ] ].
Proof. eexists. repeat split. Qed.

(** [route] sends the three proxied routes to [proxyRequest] and the health
    check to its handler; nothing else is registered. *)
Lemma route_cases (rt : Runtime) (nw : Gateway.Network) (method path : string) :
  Gateway.route rt nw method path =
  match Gateway.proxiedRoute method path with
  | Some r =>
      Some (fun c => Gateway.proxyRequest nw c (Gateway.routeService rt r)
                                          (Gateway.routePath r))
  | None =>
      if String.eqb method "GET" && String.eqb path "/healthz"
      then Some (Gateway.handleHealthz rt)
      else None
  end.
Proof.
  unfold Gateway.route, Gateway.proxiedRoute.
  destruct (String.eqb method "GET" && String.eqb path "/healthz") eqn:Hh.
  - apply andb_true_iff in Hh as [_ Hp]. apply String.eqb_eq in Hp. subst path.
    cbn. rewrite !andb_false_r. reflexivity.
  - destruct (String.eqb method "GET" && String.eqb path "/api/v1/joke");
      [reflexivity|].
    destruct (String.eqb method "POST" && String.eqb path "/api/v1/favorite");
      [reflexivity|].
    destruct (String.eqb method "GET" && String.eqb path "/api/v1/stats");
      reflexivity.
Qed.

(** What the gateway does with a request on a proxied route, by what becomes
    of the outbound call. *)
Lemma ServeHTTP_proxied (rt : Runtime) (nw : Gateway.Network)
    (r : Gateway.ProxiedRoute) (c : Gateway.Inbound) (s : Gateway.State) :
  Gateway.proxiedRoute (Gateway.inMethod c) (Gateway.inPath c) = Some r ->
  exists resp s' d,
    Gateway.ServeHTTP rt nw c s = Ok (resp, s') /\
    match Gateway.newRequestError nw (Gateway.inMethod c)
            ("http://" ++ Gateway.routeService rt r ++ Gateway.routePath r) with
    | Some _ =>
        resp = {| status := StatusInternalServerError;
                  body := errorBody "Failed to create request" |} /\
        Gateway.sent s' = Gateway.sent s /\
        Gateway.measurements s' =
          List.app (Gateway.measurements s)
                   [countOf c StatusInternalServerError; latencyOf c d]
    | None =>
        Gateway.sent s' =
          List.app (Gateway.sent s)
                   [(Gateway.proxyClient, Gateway.outbound rt nw r c)] /\
        match Gateway.roundTrip nw Gateway.proxyClient
                                (Gateway.outbound rt nw r c) with
        | inr _ =>
            resp = {| status := StatusBadGateway;
                      body := errorBody "Service unavailable" |} /\
            Gateway.measurements s' =
              List.app (Gateway.measurements s)
                       [countOf c StatusBadGateway; latencyOf c d]
        | inl back =>
            (exists d0,
               Gateway.measurements s' =
                 List.app (Gateway.measurements s)
                   [ proxyLatencyOf (Gateway.routeService rt r)
                                    (Gateway.StatusCode back) d0;
                     countOf c (status resp); latencyOf c d ]) /\
            resp = match Gateway.RespBody back with
                   | inr _ =>
                       {| status := StatusInternalServerError;
                          body := errorBody "Failed to read response" |}
                   | inl data =>
                       {| status := Gateway.StatusCode back;
                          body := DataBody "application/json" data |}
                   end
        end
    end.
Proof.
  intros Hr.
  unfold Gateway.ServeHTTP. rewrite route_cases, Hr.
  unfold Gateway.metricsMiddleware, Gateway.proxyRequest,
    Gateway.NewRequestWithContext, Gateway.Do, Gateway.Since, Gateway.Now,
    Gateway.JSON, Gateway.Data.
  run.
  destruct (Gateway.newRequestError nw (Gateway.inMethod c)
              ("http://" ++ Gateway.routeService rt r ++ Gateway.routePath r))
    as [err|] eqn:Hnew.
  - eexists _, _, _. split; [reflexivity|].
    split; [reflexivity|]. split; [reflexivity|]. log.
  - change (Gateway.with_header _ (Gateway.with_header _ _))
      with (Gateway.outbound rt nw r c).
    change {| Gateway.Timeout := 10 * Second |} with Gateway.proxyClient.
    destruct (Gateway.roundTrip nw Gateway.proxyClient (Gateway.outbound rt nw r c))
      as [back|err] eqn:Hdo.
    + destruct (Gateway.RespBody back) as [data|err] eqn:Hbody.
      * eexists _, _, _. split; [reflexivity|].
        split; [reflexivity|]. split; [eexists; log|reflexivity].
      * eexists _, _, _. split; [reflexivity|].
        split; [reflexivity|]. split; [eexists; log|reflexivity].
    + eexists _, _, _. split; [reflexivity|].
      split; [reflexivity|]. split; [reflexivity|]. log.
Qed.

(** [withoutSlash] undoes appending a slash, and nothing else. *)
Lemma withoutSlash_inv (path shorter : string) :
  Gateway.withoutSlash path = Some shorter -> path = shorter ++ "/".
Proof.
  revert shorter. induction path as [|a rest IH]; intros shorter H.
  - discriminate H.
  - cbn [Gateway.withoutSlash] in H. destruct rest as [|b rest'].
    + destruct (Ascii.eqb_spec a (Ascii.ascii_of_nat 47)); [|discriminate H].
      injection H as <-. subst a. reflexivity.
    + destruct (Gateway.withoutSlash (String b rest')) as [q|]; [|discriminate H].
      injection H as <-. cbn [String.append]. f_equal. apply IH. reflexivity.
Qed.

(** What is registered: the health check and the three proxied routes. *)
Lemma route_registered (rt : Runtime) (nw : Gateway.Network)
    (method path : string) :
  Gateway.route rt nw method path <> None ->
  (method = "GET" /\ path = "/healthz") \/
  (method = "GET" /\ path = "/api/v1/joke") \/
  (method = "POST" /\ path = "/api/v1/favorite") \/
  (method = "GET" /\ path = "/api/v1/stats").
Proof.
  unfold Gateway.route.
  destruct (String.eqb method "GET" && String.eqb path "/healthz") eqn:H1.
  { apply andb_true_iff in H1 as [Hm Hp]. apply String.eqb_eq in Hm, Hp. auto. }
  destruct (String.eqb method "GET" && String.eqb path "/api/v1/joke") eqn:H2.
  { apply andb_true_iff in H2 as [Hm Hp]. apply String.eqb_eq in Hm, Hp. auto. }
  destruct (String.eqb method "POST" && String.eqb path "/api/v1/favorite") eqn:H3.
  { apply andb_true_iff in H3 as [Hm Hp]. apply String.eqb_eq in Hm, Hp. auto. }
  destruct (String.eqb method "GET" && String.eqb path "/api/v1/stats") eqn:H4.
  { apply andb_true_iff in H4 as [Hm Hp]. apply String.eqb_eq in Hm, Hp. auto 6. }
  intros H. congruence.
Qed.

(** The engine redirects exactly the four requests that are a slash away
    from a registered route of their method. *)
Lemma redirectsTrailingSlash_cases (rt : Runtime) (nw : Gateway.Network)
    (c : Gateway.Inbound) :
  Gateway.redirectsTrailingSlash rt nw (Gateway.inMethod c) (Gateway.inPath c)
    = slashRedirected c.
Proof.
  unfold Gateway.redirectsTrailingSlash, slashRedirected.
  destruct (Gateway.withoutSlash (Gateway.inPath c)) as [q|] eqn:Hq.
  - destruct (Gateway.route rt nw (Gateway.inMethod c) q) as [h|] eqn:Hroute.
    + apply withoutSlash_inv in Hq. rewrite Hq.
      destruct (route_registered rt nw (Gateway.inMethod c) q)
        as [[-> ->] | [[-> ->] | [[-> ->] | [-> ->]]]];
        [congruence|reflexivity..].
    + symmetry. apply not_true_is_false. intros Hs.
      apply orb_true_iff in Hs as [Hs | Hs];
        apply andb_true_iff in Hs as [Hm Hp];
        apply String.eqb_eq in Hm; rewrite Hm in Hroute.
      * apply orb_true_iff in Hp as [Hp | Hp];
          [apply orb_true_iff in Hp as [Hp | Hp]|];
          apply String.eqb_eq in Hp; rewrite Hp in Hq;
          injection Hq as <-; discriminate Hroute.
      * apply String.eqb_eq in Hp. rewrite Hp in Hq.
        injection Hq as <-. discriminate Hroute.
  - symmetry. apply not_true_is_false. intros Hs.
    apply orb_true_iff in Hs as [Hs | Hs];
      apply andb_true_iff in Hs as [_ Hp].
    + apply orb_true_iff in Hp as [Hp | Hp];
        [apply orb_true_iff in Hp as [Hp | Hp]|];
        apply String.eqb_eq in Hp; rewrite Hp in Hq; discriminate Hq.
    + apply String.eqb_eq in Hp. rewrite Hp in Hq. discriminate Hq.
Qed.

(** A request falls on a proxied route only with the method and the path
    the route is registered under. *)
Lemma proxiedRoute_sound (method path : string) (r : Gateway.ProxiedRoute) :
  Gateway.proxiedRoute method path = Some r ->
  method = Gateway.routeMethod r /\ path = Gateway.routePath r.
Proof.
  unfold Gateway.proxiedRoute.
  destruct (String.eqb method "GET" && String.eqb path "/api/v1/joke") eqn:H1.
  { intros H; injection H as <-. apply andb_true_iff in H1 as [Hm Hp].
    apply String.eqb_eq in Hm, Hp. split; assumption. }
  destruct (String.eqb method "POST" && String.eqb path "/api/v1/favorite") eqn:H2.
  { intros H; injection H as <-. apply andb_true_iff in H2 as [Hm Hp].
    apply String.eqb_eq in Hm, Hp. split; assumption. }
  destruct (String.eqb method "GET" && String.eqb path "/api/v1/stats") eqn:H3.
  { intros H; injection H as <-. apply andb_true_iff in H3 as [Hm Hp].
    apply String.eqb_eq in Hm, Hp. split; assumption. }
  intros H; discriminate H.
Qed.

(** A request on a proxied route is not one the engine redirects. *)
Lemma proxied_not_redirected (c : Gateway.Inbound) (r : Gateway.ProxiedRoute) :
  Gateway.proxiedRoute (Gateway.inMethod c) (Gateway.inPath c) = Some r ->
  slashRedirected c = false.
Proof.
  intros Hr. apply proxiedRoute_sound in Hr as [Hm Hp].
  unfold slashRedirected. rewrite Hm, Hp. destruct r; reflexivity.
Qed.

(** A request off the proxied routes is the health check, is redirected by
    the engine, or is not routed; only the engine's redirect escapes the
    middleware. *)
Lemma ServeHTTP_local (rt : Runtime) (nw : Gateway.Network)
    (c : Gateway.Inbound) (s : Gateway.State) :
  Gateway.proxiedRoute (Gateway.inMethod c) (Gateway.inPath c) = None ->
  exists resp s' d,
    Gateway.ServeHTTP rt nw c s = Ok (resp, s') /\
    Gateway.sent s' = Gateway.sent s /\
    if slashRedirected c
    then
      resp = {| status := if String.eqb (Gateway.inMethod c) "GET"
                          then StatusMovedPermanently
                          else StatusTemporaryRedirect;
                body := RedirectBody |} /\
      Gateway.measurements s' = Gateway.measurements s /\
      Gateway.clock s' = Gateway.clock s
    else
      status resp =
        (if String.eqb (Gateway.inMethod c) "GET" &&
            String.eqb (Gateway.inPath c) "/healthz"
         then StatusOK else StatusNotFound) /\
      (ticks (Gateway.clock s) < ticks (Gateway.clock s'))%nat /\
      d = Milliseconds
            (Sub (reading (Gateway.clock s) (pred (ticks (Gateway.clock s'))))
                 (reading (Gateway.clock s) (ticks (Gateway.clock s)))) /\
      Gateway.measurements s' =
        List.app (Gateway.measurements s)
                 [countOf c (status resp); latencyOf c d].
Proof.
  intros Hr.
  unfold Gateway.ServeHTTP. rewrite route_cases, Hr.
  destruct (String.eqb (Gateway.inMethod c) "GET" &&
            String.eqb (Gateway.inPath c) "/healthz") eqn:Hh.
  - assert (Hs : slashRedirected c = false).
    { apply andb_true_iff in Hh as [Hm Hp]. apply String.eqb_eq in Hm, Hp.
      unfold slashRedirected. rewrite Hm, Hp. reflexivity. }
    rewrite Hs.
    unfold Gateway.metricsMiddleware, Gateway.handleHealthz, Gateway.Since,
      Gateway.Now, Gateway.JSON.
    run. eexists _, _, _. split; [reflexivity|].
    split; [reflexivity|]. split; [reflexivity|].
    split; [cbn; lia|]. split; [reflexivity|]. log.
  - rewrite redirectsTrailingSlash_cases.
    destruct (slashRedirected c).
    + unfold Gateway.redirectTrailingSlash. run.
      eexists _, _, 0. split; [reflexivity|].
      split; [reflexivity|]. split; [reflexivity|]. split; reflexivity.
    + unfold Gateway.metricsMiddleware, Gateway.Since, Gateway.Now.
      run. eexists _, _, _. split; [reflexivity|].
      split; [reflexivity|]. split; [reflexivity|].
      split; [cbn; lia|]. split; [reflexivity|]. log.
Qed.

(** C4. On a proxied route the gateway answers 500 with an error body when
    the outbound request cannot be built, 502 when the outbound call fails,
    and 500 when the body of the backend's response cannot be read.  The
    outbound call is made at most once: not at all in the first case, exactly
    once in the other two. *)
Theorem C4_proxy_failures (rt : Runtime) (nw : Gateway.Network)
    (r : Gateway.ProxiedRoute) (c : Gateway.Inbound) (s : Gateway.State) :
  Gateway.proxiedRoute (Gateway.inMethod c) (Gateway.inPath c) = Some r ->
  exists resp s',
    Gateway.ServeHTTP rt nw c s = Ok (resp, s') /\
    (List.length (Gateway.sent s') <= List.length (Gateway.sent s) + 1)%nat /\
    (forall err,
       Gateway.NewRequestWithContext nw (Gateway.inCtx c) (Gateway.inMethod c)
         ("http://" ++ Gateway.routeService rt r ++ Gateway.routePath r)
         (Gateway.inBody c) = inr err ->
       resp = {| status := StatusInternalServerError;
                 body := errorBody "Failed to create request" |} /\
       Gateway.sent s' = Gateway.sent s) /\
    (forall req,
       Gateway.NewRequestWithContext nw (Gateway.inCtx c) (Gateway.inMethod c)
         ("http://" ++ Gateway.routeService rt r ++ Gateway.routePath r)
         (Gateway.inBody c) = inl req ->
       Gateway.sent s' =
         List.app (Gateway.sent s)
                  [(Gateway.proxyClient, Gateway.outbound rt nw r c)] /\
       (forall err,
          Gateway.roundTrip nw Gateway.proxyClient (Gateway.outbound rt nw r c)
            = inr err ->
          resp = {| status := StatusBadGateway;
                    body := errorBody "Service unavailable" |}) /\
       (forall back err,
          Gateway.roundTrip nw Gateway.proxyClient (Gateway.outbound rt nw r c)
            = inl back ->
          Gateway.RespBody back = inr err ->
          resp = {| status := StatusInternalServerError;
                    body := errorBody "Failed to read response" |})).
Proof.
  intros Hr.
  destruct (ServeHTTP_proxied rt nw r c s Hr) as (resp & s' & d & E & H).
  exists resp, s'. split; [exact E|].
  unfold Gateway.NewRequestWithContext.
  destruct (Gateway.newRequestError nw (Gateway.inMethod c)
              ("http://" ++ Gateway.routeService rt r ++ Gateway.routePath r))
    as [e|].
  - destruct H as (Hresp & Hsent & _).
    split; [rewrite Hsent; lia|].
    split; [intros _ _; split; assumption|].
    intros req Hreq. discriminate Hreq.
  - destruct H as (Hsent & H).
    split; [rewrite Hsent, length_app; cbn; lia|].
    split; [intros err Herr; discriminate Herr|].
    intros req _. split; [exact Hsent|].
    destruct (Gateway.roundTrip nw Gateway.proxyClient (Gateway.outbound rt nw r c))
      as [back|e].
    + split; [intros err Herr; discriminate Herr|].
      intros back' err Hback Hbody. inversion Hback; subst back'.
      destruct H as (_ & Hresp). rewrite Hbody in Hresp. exact Hresp.
    + destruct H as (Hresp & _).
      split; [intros _ _; exact Hresp|].
      intros back err Hback. discriminate Hback.
Qed.

Lemma C4_witness :
  Gateway.proxiedRoute (Gateway.inMethod postFavorite) (Gateway.inPath postFavorite)
    = Some Gateway.ToUser /\
  (exists resp s',
     Gateway.ServeHTTP plainRuntime refusing postFavorite (Gateway.init steadyClock)
       = Ok (resp, s') /\
     resp = {| status := StatusInternalServerError;
               body := errorBody "Failed to create request" |} /\
     Gateway.sent s' = []) /\
  (exists resp s',
     Gateway.ServeHTTP plainRuntime unreachable postFavorite (Gateway.init steadyClock)
       = Ok (resp, s') /\
     resp = {| status := StatusBadGateway;
               body := errorBody "Service unavailable" |} /\
     List.length (Gateway.sent s') = 1%nat) /\
  (exists resp s',
     Gateway.ServeHTTP plainRuntime breaking postFavorite (Gateway.init steadyClock)
       = Ok (resp, s') /\
     resp = {| status := StatusInternalServerError;
               body := errorBody "Failed to read response" |} /\
     List.length (Gateway.sent s') = 1%nat).
Proof.
  split; [reflexivity|]. split; [|split].
  - destruct (C4_proxy_failures plainRuntime refusing Gateway.ToUser postFavorite
                (Gateway.init steadyClock) eq_refl)
      as (resp & s' & E & _ & Hbuild & _).
    exists resp, s'. split; [exact E|].
    apply (Hbuild "invalid URL"). reflexivity.
  - destruct (C4_proxy_failures plainRuntime unreachable Gateway.ToUser postFavorite
                (Gateway.init steadyClock) eq_refl)
      as (resp & s' & E & _ & _ & Hsent).
    exists resp, s'. split; [exact E|].
    destruct (Hsent _ eq_refl) as (Hs & Hcall & _).
    split; [apply (Hcall "dial tcp: connection refused"); reflexivity|].
    rewrite Hs. reflexivity.
  - destruct (C4_proxy_failures plainRuntime breaking Gateway.ToUser postFavorite
                (Gateway.init steadyClock) eq_refl)
      as (resp & s' & E & _ & _ & Hsent).
    exists resp, s'. split; [exact E|].
    destruct (Hsent _ eq_refl) as (Hs & _ & Hread).
    split; [eapply Hread; reflexivity|].
    rewrite Hs. reflexivity.
Defined.

(** C7. When a request on a proxied route goes through, the gateway has
    sent one outbound request: to the configured address of the backend (the
    value of the route's environment variable, or the backend's cluster name
    when the variable is empty) followed by the fixed path, with the method
    and the body of the inbound request, with the headers the propagator
    injects for the inbound request's context (and [Content-Type]), through
    a client whose timeout is 10 seconds.  It answers with the backend's
    status code and body. *)
Theorem C7_proxy_relays (rt : Runtime) (nw : Gateway.Network)
    (r : Gateway.ProxiedRoute) (c : Gateway.Inbound) (s : Gateway.State)
    (back : Gateway.BackendResponse) (data : string) :
  let address :=
    match r with
    | Gateway.ToJokes =>
        if String.eqb (Getenv rt "JOKES_SERVICE_URL") ""
        then "jokes-service.default.svc.cluster.local"
        else Getenv rt "JOKES_SERVICE_URL"
    | Gateway.ToUser =>
        if String.eqb (Getenv rt "USER_SERVICE_URL") ""
        then "user-service.default.svc.cluster.local"
        else Getenv rt "USER_SERVICE_URL"
    | Gateway.ToAnalytics =>
        if String.eqb (Getenv rt "ANALYTICS_SERVICE_URL") ""
        then "analytics-service.default.svc.cluster.local"
        else Getenv rt "ANALYTICS_SERVICE_URL"
    end in
  let path :=
    match r with
    | Gateway.ToJokes => "/api/v1/joke"
    | Gateway.ToUser => "/api/v1/favorite"
    | Gateway.ToAnalytics => "/api/v1/stats"
    end in
  let client := {| Gateway.Timeout := 10 * Second |} in
  let req :=
    {| Gateway.Method := Gateway.inMethod c;
       Gateway.URL := "http://" ++ address ++ path;
       Gateway.ReqBody := Gateway.inBody c;
       Gateway.ReqHeader :=
         Gateway.Set_ "Content-Type" "application/json"
           (Gateway.Inject nw (Gateway.inCtx c) []);
       Gateway.ReqCtx := Gateway.inCtx c |} in
  Gateway.proxiedRoute (Gateway.inMethod c) (Gateway.inPath c) = Some r ->
  Gateway.newRequestError nw (Gateway.inMethod c) ("http://" ++ address ++ path)
    = None ->
  Gateway.roundTrip nw client req = inl back ->
  Gateway.RespBody back = inl data ->
  exists s',
    Gateway.ServeHTTP rt nw c s =
      Ok ({| status := Gateway.StatusCode back;
             body := DataBody "application/json" data |}, s') /\
    Gateway.sent s' = List.app (Gateway.sent s) [(client, req)].
Proof.
  intros address path client req Hr Hnew Hdo Hbody.
  destruct (ServeHTTP_proxied rt nw r c s Hr) as (resp & s' & d & E & H).
  assert (Ha : Gateway.routeService rt r = address) by (destruct r; reflexivity).
  assert (Hp : Gateway.routePath r = path) by (destruct r; reflexivity).
  assert (Hreq : Gateway.outbound rt nw r c = req)
    by (unfold Gateway.outbound, req; rewrite Ha, Hp; reflexivity).
  rewrite Ha, Hp, Hnew, Hreq in H.
  change Gateway.proxyClient with client in H.
  rewrite Hdo, Hbody in H. destruct H as (Hsent & _ & Hresp).
  exists s'. subst resp. split; [exact E|exact Hsent].
Qed.

Lemma C7_witness :
  exists s',
    Gateway.ServeHTTP notifyingRuntime answering postFavorite
                      (Gateway.init steadyClock) =
      Ok ({| status := 201; body := DataBody "application/json" "{}" |}, s') /\
    Gateway.sent s' =
      [({| Gateway.Timeout := 10 * Second |},
        {| Gateway.Method := "POST";
           Gateway.URL := "http://user.internal:8083/api/v1/favorite";
           Gateway.ReqBody := "{}";
           Gateway.ReqHeader :=
             Gateway.Set_ "Content-Type" "application/json"
               (traceparent incoming []);
           Gateway.ReqCtx := incoming |})].
Proof.
  apply (C7_proxy_relays notifyingRuntime answering Gateway.ToUser postFavorite
           (Gateway.init steadyClock)
           {| Gateway.StatusCode := 201; Gateway.RespBody := inl "{}" |} "{}");
    reflexivity.
Defined.

Lemma routeService_configured (rt : Runtime) (r : Gateway.ProxiedRoute) :
  Gateway.routeService rt r = configuredAddress rt r.
Proof. destruct r; reflexivity. Qed.

(** C9 (as amended). A request that is one slash away from a registered
    route of its method is redirected by the router before any middleware
    runs, and nothing is recorded for it.  For every other request the
    middleware adds one to the request count, labelled with method, path and
    the status code of the answer, and records one latency, labelled with
    method and path only.  Before these, a proxied call that got a response
    from its backend has recorded one more latency, labelled with the
    backend's configured address and status code; no other request records
    more. *)
Theorem C9_gateway_measurements (rt : Runtime) (nw : Gateway.Network)
    (c : Gateway.Inbound) (s : Gateway.State) :
  exists resp s' d d0,
    Gateway.ServeHTTP rt nw c s = Ok (resp, s') /\
    Gateway.measurements s' =
      List.app (Gateway.measurements s)
        (if slashRedirected c then []
         else
           List.app
             match Gateway.backendResponse rt nw c with
             | Some (r, back) =>
                 [ Record_ "http.server.request_duration" d0
                     [ ("service", AString (configuredAddress rt r));
                       ("status_code", AInt (Gateway.StatusCode back)) ] ]
             | None => []
             end
             [ Add "http.server.request_count" 1
                 [ ("method", AString (Gateway.inMethod c));
                   ("path", AString (Gateway.inPath c));
                   ("status_code", AInt (status resp)) ];
               Record_ "http.server.request_duration" d
                 [ ("method", AString (Gateway.inMethod c));
                   ("path", AString (Gateway.inPath c)) ] ]).
Proof.
  unfold Gateway.backendResponse.
  destruct (Gateway.proxiedRoute (Gateway.inMethod c) (Gateway.inPath c))
    as [r|] eqn:Hr.
  - rewrite (proxied_not_redirected c r Hr).
    destruct (ServeHTTP_proxied rt nw r c s Hr) as (resp & s' & d & E & H).
    destruct (Gateway.newRequestError nw (Gateway.inMethod c)
                ("http://" ++ Gateway.routeService rt r ++ Gateway.routePath r)).
    + destruct H as (Hresp & _ & Hm).
      exists resp, s', d, 0. split; [exact E|].
      rewrite Hm, Hresp. reflexivity.
    + destruct H as (_ & H).
      destruct (Gateway.roundTrip nw Gateway.proxyClient (Gateway.outbound rt nw r c))
        as [back|err].
      * destruct H as ((d0 & Hm) & _).
        exists resp, s', d, d0. split; [exact E|].
        rewrite <- routeService_configured. exact Hm.
      * destruct H as (Hresp & Hm).
        exists resp, s', d, 0. split; [exact E|].
        rewrite Hm, Hresp. reflexivity.
  - destruct (ServeHTTP_local rt nw c s Hr) as (resp & s' & d & E & _ & H).
    exists resp, s', d, 0. split; [exact E|].
    destruct (slashRedirected c).
    + destruct H as (_ & Hm & _). rewrite Hm, app_nil_r. reflexivity.
    + destruct H as (_ & _ & _ & Hm). exact Hm.
Qed.

(** C9 as the specification words it fails twice: the latency the
    middleware records for a health check carries no status code, and a
    health check with a slash too many is redirected without any record. *)
Lemma C9_counterexample_labels_and_redirect :
  (exists resp s',
     Gateway.ServeHTTP plainRuntime answering getHealthz (Gateway.init steadyClock)
       = Ok (resp, s') /\
     status resp = 200 /\
     Gateway.measurements s' =
       [ Add "http.server.request_count" 1
           [ ("method", AString "GET"); ("path", AString "/healthz");
             ("status_code", AInt 200) ];
         Record_ "http.server.request_duration" 14
           [ ("method", AString "GET"); ("path", AString "/healthz") ] ] /\
     forallb (has_label "status_code")
             (filter (is_record "http.server.request_duration")
                     (Gateway.measurements s')) = false) /\
  (exists resp s',
     Gateway.ServeHTTP plainRuntime answering getHealthzSlash
                       (Gateway.init steadyClock) = Ok (resp, s') /\
     status resp = 301 /\
     Gateway.measurements s' = []).
Proof. split; eexists _, _; repeat split. Qed.

(** * Further properties *)

(** Projects the fields of the jokes service's state. *)
Ltac jproj :=
  cbn [Jokes.jokeList Jokes.rand Jokes.clock Jokes.measurements Jokes.slept
       Jokes.spawned Jokes.with_rand Jokes.with_clock Jokes.with_measurement
       Jokes.with_sleep Jokes.with_spawn Jokes.draw Jokes.drawn
       ticks reading advance read] in *.

(** ** Jokes service *)

Lemma Intn_runs (n : Z) (s : Jokes.State) :
  0 < n ->
  Jokes.Intn n s =
  Ok (Jokes.draw (Jokes.rand s) (Jokes.drawn (Jokes.rand s)) mod n,
      Jokes.with_rand {| Jokes.draw := Jokes.draw (Jokes.rand s);
                         Jokes.drawn := S (Jokes.drawn (Jokes.rand s)) |} s).
Proof.
  intros Hn. unfold Jokes.Intn.
  destruct (Z.leb_spec n 0); [lia|]. reflexivity.
Qed.

(** X1. Serving a joke from a non-empty list sleeps once, for a whole number
    of milliseconds from 0 to 49; records one latency and then one served
    joke; takes two random draws and three clock readings; and starts one
    goroutine, which captured the joke that is answered and the address to
    notify: the value of [ANALYTICS_SERVICE_URL], or the cluster name when
    the variable is empty.  The goroutine, whatever the network, either
    cannot build its request and panics on the nil request, or sends one
    POST to [/internal/track] at that address through a client with a
    timeout of two seconds, with the header [X-Joke-Length] (the character
    whose code point is the length of the joke) under what the propagator
    injects, and only logs a failure of the call. *)
Theorem X1_joke_request_effects (rt : Runtime) (s : Jokes.State) :
  Jokes.jokeList s <> [] ->
  exists resp s' n d joke timestamp g,
    Jokes.handleJoke rt s = Ok (resp, s') /\
    resp = {| status := StatusOK;
              body := JsonBody (JObj [ ("joke", JStr joke);
                                       ("service", JStr "jokes-service");
                                       ("timestamp", JStr timestamp) ]) |} /\
    0 <= n < 50 /\
    Jokes.slept s' = List.app (Jokes.slept s) [n * Millisecond] /\
    Jokes.measurements s' =
      List.app (Jokes.measurements s)
               [Record_ "jokes.latency" d []; Add "jokes.served" 1 []] /\
    Jokes.drawn (Jokes.rand s') = (Jokes.drawn (Jokes.rand s) + 2)%nat /\
    ticks (Jokes.clock s') = (ticks (Jokes.clock s) + 3)%nat /\
    Jokes.spawned s' = List.app (Jokes.spawned s) [g] /\
    Jokes.g_joke g = joke /\
    Jokes.g_analyticsService g =
      (if String.eqb (Getenv rt "ANALYTICS_SERVICE_URL") ""
       then "analytics-service.default.svc.cluster.local"
       else Getenv rt "ANALYTICS_SERVICE_URL") /\
    forall nw : Jokes.Network,
      match Jokes.newRequestError nw "POST"
              ("http://" ++
               (if String.eqb (Getenv rt "ANALYTICS_SERVICE_URL") ""
                then "analytics-service.default.svc.cluster.local"
                else Getenv rt "ANALYTICS_SERVICE_URL") ++
               "/internal/track") with
      | Some _ => Jokes.notification nw g = Panic NilPointerDereference
      | None =>
          Jokes.notification nw g =
            Ok {| Jokes.clientTimeout := 2 * Second;
                  Jokes.sentRequest :=
                    {| Jokes.Method := "POST";
                       Jokes.URL :=
                         "http://" ++
                         (if String.eqb (Getenv rt "ANALYTICS_SERVICE_URL") ""
                          then "analytics-service.default.svc.cluster.local"
                          else Getenv rt "ANALYTICS_SERVICE_URL") ++
                         "/internal/track";
                       Jokes.ReqHeader :=
                         Jokes.Inject nw
                           [("X-Joke-Length",
                             Jokes.runeString (Z.of_nat (String.length joke)))] |};
                  Jokes.warned :=
                    Jokes.roundTrip nw (2 * Second)
                      {| Jokes.Method := "POST";
                         Jokes.URL :=
                           "http://" ++
                           (if String.eqb (Getenv rt "ANALYTICS_SERVICE_URL") ""
                            then "analytics-service.default.svc.cluster.local"
                            else Getenv rt "ANALYTICS_SERVICE_URL") ++
                           "/internal/track";
                         Jokes.ReqHeader :=
                           Jokes.Inject nw
                             [("X-Joke-Length",
                               Jokes.runeString (Z.of_nat (String.length joke)))] |} |}
      end.
Proof.
  intros Hne.
  assert (Hlen : 0 < Z.of_nat (List.length (Jokes.jokeList s))).
  { destruct (Jokes.jokeList s); [congruence|cbn [List.length]; lia]. }
  unfold Jokes.handleJoke, Jokes.notifyAnalytics, Jokes.getRandomJoke,
    Jokes.Since, Jokes.Now, Jokes.Sleep.
  run. rewrite Intn_runs by lia. jproj.
  set (n := Jokes.draw (Jokes.rand s) (Jokes.drawn (Jokes.rand s)) mod 50).
  assert (Hn : 0 <= n < 50) by (apply Z.mod_pos_bound; lia).
  rewrite Intn_runs by (jproj; exact Hlen). jproj.
  match goal with
  | |- context [index (Jokes.jokeList s) ?i] =>
      destruct (index_in_range (Jokes.jokeList s) i) as (joke & Ej & _);
        [apply Z.mod_pos_bound; exact Hlen|];
      rewrite Ej
  end.
  jproj.
  eexists _, _, n, _, joke, _, _. split; [reflexivity|].
  split; [reflexivity|].
  split; [exact Hn|]. jproj.
  rewrite wrap64_id by (unfold minInt64, maxInt64, Millisecond; lia).
  split; [rewrite Z.mul_comm; reflexivity|].
  split; [rewrite <- app_assoc; reflexivity|].
  split; [lia|]. split; [lia|].
  split; [reflexivity|]. split; [reflexivity|]. split; [reflexivity|].
  intros nw. unfold Jokes.notification. cbn [Jokes.g_analyticsService Jokes.g_joke].
  destruct (Jokes.newRequestError nw "POST" _); reflexivity.
Qed.

Lemma X1_witness :
  Jokes.jokeList (Jokes.init countingRand steadyClock) <> [] /\
  exists resp s',
    Jokes.handleJoke notifyingRuntime (Jokes.init countingRand steadyClock)
      = Ok (resp, s') /\
    Jokes.spawned s' =
      [{| Jokes.g_analyticsService := "analytics.internal:8082";
          Jokes.g_joke :=
            "Why did the programmer quit? Because they didn't get arrays." |}].
Proof.
  split; [discriminate|].
  destruct (X1_joke_request_effects notifyingRuntime
              (Jokes.init countingRand steadyClock))
    as (resp & s' & n & d & joke & ts & g & E & _); [discriminate|].
  exists resp, s'. split; [exact E|].
  revert E. unfold Jokes.handleJoke, Jokes.getRandomJoke. intros E.
  vm_compute in E. injection E as _ <-. reflexivity.
Defined.

Example goroutine_panics_when_request_cannot_be_built :
  Jokes.notification
    {| Jokes.newRequestError := fun _ url =>
         if String.eqb url "http://a b/internal/track"
         then Some "invalid character in host name" else None;
       Jokes.Inject := fun h => h;
       Jokes.roundTrip := fun _ _ => None |}
    {| Jokes.g_analyticsService := "a b"; Jokes.g_joke := "x" |}
  = Panic NilPointerDereference.
Proof. reflexivity. Qed.

Example goroutine_sends_joke_length :
  Jokes.notification
    {| Jokes.newRequestError := fun _ _ => None;
       Jokes.Inject := fun h => ("Traceparent", "00-4b-00-01") :: h;
       Jokes.roundTrip := fun _ _ => Some "connection refused" |}
    {| Jokes.g_analyticsService := "analytics.internal:8082";
       Jokes.g_joke := "To understand recursion, you must first understand recursion." |}
  = Ok {| Jokes.clientTimeout := 2000000000;
          Jokes.sentRequest :=
            {| Jokes.Method := "POST";
               Jokes.URL := "http://analytics.internal:8082/internal/track";
               Jokes.ReqHeader := [ ("Traceparent", "00-4b-00-01");
                                    ("X-Joke-Length", "=") ] |};
          Jokes.warned := Some "connection refused" |}.
Proof. reflexivity. Qed.

(** ** Analytics service *)

(** [n] track requests in a row: what they leave behind. *)
Lemma tracks_runs (n : nat) (s : Analytics.State) :
  exists s',
    Analytics.tracks n s = Ok s' /\
    Analytics.measurements s' =
      List.app (Analytics.measurements s)
               (repeat (Add "analytics.tracks" 1 []) n) /\
    ticks (Analytics.clock s') = (ticks (Analytics.clock s) + n)%nat /\
    reading (Analytics.clock s') = reading (Analytics.clock s) /\
    (forall m, n = S m ->
       Analytics.lastUpdate (Analytics.stats s') =
         reading (Analytics.clock s) (ticks (Analytics.clock s) + m)).
Proof.
  revert s. induction n as [|n IH]; intros s.
  - exists s. split; [reflexivity|].
    split; [cbn [repeat]; rewrite app_nil_r; reflexivity|].
    split; [lia|]. split; [reflexivity|]. intros m Hm. discriminate Hm.
  - cbn [Analytics.tracks]. rewrite handleTrack_runs.
    match goal with
    | |- context [Analytics.tracks n ?s1] =>
        destruct (IH s1) as (s' & E & Hm & Ht & Hr & Hl)
    end.
    cbn [Analytics.measurements Analytics.clock Analytics.stats
         Analytics.lastUpdate ticks reading advance] in Hm, Ht, Hr, Hl.
    exists s'. split; [exact E|].
    split; [rewrite Hm, <- app_assoc; reflexivity|].
    split; [lia|]. split; [exact Hr|].
    intros m Hm'. injection Hm' as <-.
    destruct n as [|n'].
    + cbn [Analytics.tracks] in E. injection E as <-.
      cbn [Analytics.stats Analytics.lastUpdate]. unfold read.
      rewrite Nat.add_0_r. reflexivity.
    + rewrite (Hl n' eq_refl). f_equal. lia.
Qed.

(** X2. The instrument [analytics.tracks] gets exactly one increment of 1
    per track request, so after [n] of them it has been given [n]
    increments, without any wrap-around; a stats request gives it none. *)
Theorem X2_tracks_are_counted_once_each (rt : Runtime) (n : nat)
    (s : Analytics.State) :
  exists s',
    Analytics.tracks n s = Ok s' /\
    Analytics.measurements s' =
      List.app (Analytics.measurements s)
               (repeat (Add "analytics.tracks" 1 []) n) /\
    exists resp s'',
      Analytics.handleStats rt s' = Ok (resp, s'') /\
      Analytics.measurements s'' = Analytics.measurements s'.
Proof.
  destruct (tracks_runs n s) as (s' & E & Hm & _).
  exists s'. split; [exact E|]. split; [exact Hm|].
  eexists _, _. split; [apply handleStats_runs|reflexivity].
Qed.

(** X3. [lastUpdate] holds the clock reading taken by the last track
    request served, however many came before it. *)
Theorem X3_last_update_is_last_track (n : nat) (s : Analytics.State) :
  exists s',
    Analytics.tracks (S n) s = Ok s' /\
    Analytics.lastUpdate (Analytics.stats s') =
      reading (Analytics.clock s) (ticks (Analytics.clock s) + n).
Proof.
  destruct (tracks_runs (S n) s) as (s' & E & _ & _ & _ & Hl).
  exists s'. split; [exact E|]. apply Hl. reflexivity.
Qed.

(** In every reachable state [lastUpdate] is a reading the clock gave
    earlier. *)
Lemma reachable_last_update (rt : Runtime) (c : Clock) (s : Analytics.State) :
  Analytics.reachable rt c s ->
  reading (Analytics.clock s) = reading c /\
  exists k, (k < ticks (Analytics.clock s))%nat /\
            Analytics.lastUpdate (Analytics.stats s) = reading c k.
Proof.
  induction 1 as [|s r s' _ [Hr (k & Hk & Hl)] E|s r s' _ [Hr (k & Hk & Hl)] E].
  - split; [reflexivity|]. exists (ticks c). split; [cbn; lia|reflexivity].
  - rewrite handleTrack_runs in E. inversion E; subst. clear E.
    cbn [Analytics.clock Analytics.stats Analytics.lastUpdate advance reading ticks].
    split; [exact Hr|].
    exists (ticks (Analytics.clock s)). split; [lia|].
    unfold read. rewrite Hr. reflexivity.
  - rewrite handleStats_runs in E. inversion E; subst. clear E.
    cbn [Analytics.clock Analytics.stats Analytics.with_clock advance reading ticks].
    split; [exact Hr|]. exists k. split; [lia|exact Hl].
Qed.

Lemma Sub_nonneg (t u : Time) : u <= t -> 0 <= Sub t u.
Proof.
  intros H. unfold Sub, minInt64, maxInt64.
  destruct (Z.ltb_spec (t - u) (- 2 ^ 63)); [lia|].
  destruct (Z.ltb_spec (2 ^ 63 - 1) (t - u)); lia.
Qed.

(** X4. As long as the clock does not go backwards, the uptime a stats
    request reports is never negative, in whatever state the service is: its
    whole seconds are at least 0 and its nanosecond part is in [0, 10^9). *)
Theorem X4_uptime_is_not_negative (rt : Runtime) (c : Clock)
    (s : Analytics.State) :
  monotone c ->
  Analytics.reachable rt c s ->
  exists resp s' j up,
    Analytics.handleStats rt s = Ok (resp, s') /\
    body resp = JsonBody j /\
    get "uptime_seconds" j = Some (JFloat up) /\
    0 <= whole_sec up /\
    0 <= frac_nsec up < 1000000000.
Proof.
  intros Hmono Hreach.
  destruct (reachable_last_update rt c s Hreach) as (Hr & k & Hk & Hl).
  eexists _, _, _, _. split; [apply handleStats_runs|].
  split; [reflexivity|]. split; [reflexivity|].
  assert (Hd : 0 <= Sub (read (Analytics.clock s))
                        (Analytics.lastUpdate (Analytics.stats s))).
  { apply Sub_nonneg. rewrite Hl. unfold read. rewrite Hr. apply Hmono. lia. }
  unfold Seconds, Second. cbn [whole_sec frac_nsec].
  split; [apply Z.quot_pos; lia|].
  apply Z.rem_bound_pos; lia.
Qed.

Lemma X4_witness :
  monotone nanoClock /\
  Analytics.reachable plainRuntime nanoClock (Analytics.init nanoClock) /\
  exists resp s' j up,
    Analytics.handleStats plainRuntime (Analytics.init nanoClock) = Ok (resp, s') /\
    body resp = JsonBody j /\
    get "uptime_seconds" j = Some (JFloat up) /\
    0 <= whole_sec up /\
    0 <= frac_nsec up < 1000000000.
Proof.
  assert (Hmono : monotone nanoClock).
  { intros i j Hij. cbn. lia. }
  split; [exact Hmono|]. split; [constructor|].
  apply (X4_uptime_is_not_negative plainRuntime nanoClock (Analytics.init nanoClock));
    [exact Hmono|constructor].
Defined.

(** ** User service *)

(** The slice the loop of [getFavorites] ends with: the one it started
    with when nothing passes the test, a fresh one otherwise. *)
Lemma collect_slice (userID : string) (l : list User.Favorite)
    (acc : slice User.Favorite) :
  fold_left (User.collect userID) l acc =
  match filter (wanted userID) l with
  | [] => acc
  | _ :: _ => mk_slice (List.app (elems acc) (filter (wanted userID) l))
  end.
Proof.
  revert acc. induction l as [|fav l IH]; intros acc.
  - reflexivity.
  - cbn [fold_left filter]. rewrite IH. unfold User.collect.
    change (String.eqb userID "" || String.eqb (User.UserID fav) userID)
      with (wanted userID fav).
    destruct (wanted userID fav).
    + cbn [append elems].
      destruct (filter (wanted userID) l) as [|x rest].
      * reflexivity.
      * rewrite <- app_assoc. reflexivity.
    + reflexivity.
Qed.

(** What a listing answers, by the stored favorites that pass the test. *)
Lemma handleFavorites_runs (rt : Runtime) (query : list (string * string))
    (s : User.State) :
  User.handleFavorites rt query s =
  Ok ({| status := StatusOK;
         body := JsonBody (JObj [
           ("favorites",
            match filter (wanted (Query query "user_id"))
                         (elems (User.favorites s)) with
            | [] => JNull
            | fav :: rest => JArr (map (User.marshalFavorite rt) (fav :: rest))
            end);
           ("count",
            JInt (Z.of_nat (List.length
                    (filter (wanted (Query query "user_id"))
                            (elems (User.favorites s)))))) ]) |}, s).
Proof.
  unfold User.handleFavorites, User.getFavorites. run.
  rewrite collect_slice.
  destruct (filter (wanted (Query query "user_id")) (elems (User.favorites s)));
    reflexivity.
Qed.

(** A request that does not bind is answered 400 and changes nothing. *)
Lemma handleFavorite_rejected (rt : Runtime) (b : User.RequestBody)
    (s : User.State) (msg : string) :
  User.ShouldBindJSON b = inr msg ->
  User.handleFavorite rt b s =
    Ok ({| status := StatusBadRequest;
           body := JsonBody (JObj [("error", JStr msg)]) |}, s).
Proof. intros E. unfold User.handleFavorite. rewrite E. reflexivity. Qed.

(** A request that binds is answered 201 and stored at the end. *)
Lemma handleFavorite_accepted (rt : Runtime) (b : User.RequestBody)
    (s : User.State) (req : User.FavoriteRequest) :
  User.ShouldBindJSON b = inl req ->
  exists s',
    User.handleFavorite rt b s =
      Ok ({| status := StatusCreated;
             body := JsonBody (User.marshalFavorite rt
               {| User.ID := Format rt "20060102150405" (read (User.clock s));
                  User.Joke := User.reqJoke req;
                  User.UserID := User.reqUserID req;
                  User.CreatedAt := read (advance (User.clock s)) |}) |}, s') /\
    User.favorites s' =
      mk_slice (List.app (elems (User.favorites s))
        [{| User.ID := Format rt "20060102150405" (read (User.clock s));
            User.Joke := User.reqJoke req;
            User.UserID := User.reqUserID req;
            User.CreatedAt := read (advance (User.clock s)) |}]) /\
    User.measurements s' =
      List.app (User.measurements s) [Add "user.favorites.added" 1 []].
Proof.
  intros E. unfold User.handleFavorite. rewrite E.
  unfold User.addFavorite, User.Now. run.
  eexists. split; [reflexivity|]. split; reflexivity.
Qed.

(** Which bodies bind: those with both fields present and not empty. *)
Lemma ShouldBindJSON_cases (b : User.RequestBody) :
  match User.ShouldBindJSON b with
  | inl req =>
      b = User.Object (Some (User.reqJoke req)) (Some (User.reqUserID req)) /\
      User.reqJoke req <> "" /\ User.reqUserID req <> ""
  | inr _ =>
      match b with
      | User.Undecodable _ => True
      | User.Object joke user_id =>
          joke = None \/ joke = Some "" \/ user_id = None \/ user_id = Some ""
      end
  end.
Proof.
  destruct b as [err|joke user_id]; [exact I|].
  unfold User.ShouldBindJSON, User.validate, User.decode.
  cbn [User.reqJoke User.reqUserID].
  destruct joke as [j|], user_id as [u|].
  - destruct (String.eqb_spec j ""), (String.eqb_spec u ""); subst; cbn; auto.
  - destruct (String.eqb j ""); cbn; auto.
  - destruct (String.eqb u ""); cbn; auto.
  - cbn. auto.
Qed.

Lemma ShouldBindJSON_valid (joke user_id : string) :
  joke <> "" -> user_id <> "" ->
  User.ShouldBindJSON (User.Object (Some joke) (Some user_id)) =
    inl {| User.reqJoke := joke; User.reqUserID := user_id |}.
Proof.
  intros Hj Hu.
  unfold User.ShouldBindJSON, User.validate, User.decode.
  cbn [User.reqJoke User.reqUserID].
  apply String.eqb_neq in Hj, Hu. rewrite Hj, Hu. reflexivity.
Qed.

(** X5. A favorite whose [joke] and [user_id] are both present and not
    empty is always accepted: the answer is 201 with the created record,
    which carries the joke and the user as sent, the first clock reading
    formatted as its id and the second as its creation time; the record is
    stored after all the others and the counter is incremented once. *)
Theorem X5_valid_favorite_is_stored (rt : Runtime) (s : User.State)
    (joke user_id : string) :
  joke <> "" -> user_id <> "" ->
  exists s',
    User.handleFavorite rt (User.Object (Some joke) (Some user_id)) s =
      Ok ({| status := StatusCreated;
             body := JsonBody (JObj [
               ("id", JStr (Format rt "20060102150405" (read (User.clock s))));
               ("joke", JStr joke);
               ("user_id", JStr user_id);
               ("created_at",
                JStr (Format rt RFC3339Nano (read (advance (User.clock s))))) ]) |},
          s') /\
    User.favorites s' =
      mk_slice (List.app (elems (User.favorites s))
        [{| User.ID := Format rt "20060102150405" (read (User.clock s));
            User.Joke := joke;
            User.UserID := user_id;
            User.CreatedAt := read (advance (User.clock s)) |}]) /\
    User.measurements s' =
      List.app (User.measurements s) [Add "user.favorites.added" 1 []].
Proof.
  intros Hj Hu.
  destruct (handleFavorite_accepted rt _ s _ (ShouldBindJSON_valid joke user_id Hj Hu))
    as (s' & Er & Hf & Hm).
  exists s'. split; [exact Er|]. split; [exact Hf|exact Hm].
Qed.

Lemma X5_witness :
  "x" <> "" /\ "u1" <> "" /\
  exists s',
    User.handleFavorite plainRuntime (User.Object (Some "x") (Some "u1")) twoFavorites =
      Ok ({| status := StatusCreated;
             body := JsonBody (JObj [
               ("id", JStr (Format plainRuntime "20060102150405"
                                   (read (User.clock twoFavorites))));
               ("joke", JStr "x");
               ("user_id", JStr "u1");
               ("created_at",
                JStr (Format plainRuntime RFC3339Nano
                             (read (advance (User.clock twoFavorites))))) ]) |},
          s') /\
    User.favorites s' =
      mk_slice (List.app (elems (User.favorites twoFavorites))
        [{| User.ID := Format plainRuntime "20060102150405"
                              (read (User.clock twoFavorites));
            User.Joke := "x";
            User.UserID := "u1";
            User.CreatedAt := read (advance (User.clock twoFavorites)) |}]) /\
    User.measurements s' =
      List.app (User.measurements twoFavorites) [Add "user.favorites.added" 1 []].
Proof.
  split; [discriminate|]. split; [discriminate|].
  apply (X5_valid_favorite_is_stored plainRuntime twoFavorites "x" "u1");
    discriminate.
Defined.

(** X6. [POST /api/v1/favorite] answers 400 or 201 and nothing else.  It
    answers 400 exactly when the body cannot be decoded or lacks a non-empty
    [joke] or a non-empty [user_id], and then the state is as before. *)
Theorem X6_favorite_is_rejected_iff_invalid (rt : Runtime) (s : User.State)
    (b : User.RequestBody) :
  exists resp s',
    User.handleFavorite rt b s = Ok (resp, s') /\
    (status resp = StatusBadRequest \/ status resp = StatusCreated) /\
    (status resp = StatusBadRequest <->
     match b with
     | User.Undecodable _ => True
     | User.Object joke user_id =>
         joke = None \/ joke = Some "" \/ user_id = None \/ user_id = Some ""
     end) /\
    (status resp = StatusBadRequest -> s' = s).
Proof.
  pose proof (ShouldBindJSON_cases b) as Hb.
  destruct (User.ShouldBindJSON b) as [req|msg] eqn:E.
  - destruct (handleFavorite_accepted rt b s req E) as (s' & Er & _).
    eexists _, s'. split; [exact Er|]. cbn [status].
    split; [right; reflexivity|].
    split; [|intros H; discriminate H].
    split; [intros H; discriminate H|].
    destruct Hb as (-> & Hj & Hu).
    intros [H | [H | [H | H]]]; try discriminate H;
      injection H as H; congruence.
  - eexists _, s. split; [apply (handleFavorite_rejected rt b s msg E)|].
    cbn [status]. split; [left; reflexivity|].
    split; [|reflexivity].
    split; [intros _|reflexivity].
    destruct b; exact Hb.
Qed.

(** X7. A favorite that was accepted is listed from then on: a listing
    for its user, or a listing without a user, made right after it answers
    the records that passed the test before followed by the new record, and
    a count one higher. *)
Theorem X7_accepted_favorite_is_listed (rt : Runtime) (s : User.State)
    (joke user_id : string) (query : list (string * string)) :
  joke <> "" -> user_id <> "" ->
  Query query "user_id" = user_id \/ Query query "user_id" = "" ->
  exists posted s1 fav,
    User.handleFavorite rt (User.Object (Some joke) (Some user_id)) s
      = Ok (posted, s1) /\
    body posted = JsonBody (User.marshalFavorite rt fav) /\
    User.handleFavorites rt query s1 =
      Ok ({| status := StatusOK;
             body := JsonBody (JObj [
               ("favorites",
                JArr (map (User.marshalFavorite rt)
                       (List.app
                          (filter (wanted (Query query "user_id"))
                                  (elems (User.favorites s)))
                          [fav])));
               ("count",
                JInt (Z.of_nat (List.length
                        (filter (wanted (Query query "user_id"))
                                (elems (User.favorites s)))) + 1)) ]) |}, s1).
Proof.
  intros Hj Hu Hq.
  destruct (handleFavorite_accepted rt _ s _ (ShouldBindJSON_valid joke user_id Hj Hu))
    as (s1 & E & Hf & _).
  cbn [User.reqJoke User.reqUserID] in E, Hf.
  eexists _, s1, _. split; [exact E|]. split; [reflexivity|].
  rewrite handleFavorites_runs, Hf. cbn [elems].
  rewrite filter_app. cbn [filter].
  match goal with
  | |- context [wanted ?x ?f] =>
      replace (wanted x f) with true
  end.
  2:{ unfold wanted. cbn [User.UserID].
      destruct Hq as [-> | ->];
        [rewrite String.eqb_refl, orb_true_r|]; reflexivity. }
  rewrite length_app. cbn [List.length].
  replace (Z.of_nat (List.length
             (filter (wanted (Query query "user_id"))
                     (elems (User.favorites s))) + 1))
    with (Z.of_nat (List.length
             (filter (wanted (Query query "user_id"))
                     (elems (User.favorites s)))) + 1) by lia.
  destruct (List.app (filter (wanted (Query query "user_id"))
                             (elems (User.favorites s))) _) eqn:Happ.
  - apply app_eq_nil in Happ. destruct Happ as [_ Hnil]. discriminate Hnil.
  - reflexivity.
Qed.

Lemma X7_witness :
  "z" <> "" /\ "u2" <> "" /\
  (Query [("user_id", "u2")] "user_id" = "u2" \/
   Query [("user_id", "u2")] "user_id" = "") /\
  exists posted s1 fav,
    User.handleFavorite plainRuntime (User.Object (Some "z") (Some "u2")) twoFavorites
      = Ok (posted, s1) /\
    body posted = JsonBody (User.marshalFavorite plainRuntime fav) /\
    User.handleFavorites plainRuntime [("user_id", "u2")] s1 =
      Ok ({| status := StatusOK;
             body := JsonBody (JObj [
               ("favorites",
                JArr (map (User.marshalFavorite plainRuntime)
                       (List.app
                          (filter (wanted (Query [("user_id", "u2")] "user_id"))
                                  (elems (User.favorites twoFavorites)))
                          [fav])));
               ("count",
                JInt (Z.of_nat (List.length
                        (filter (wanted (Query [("user_id", "u2")] "user_id"))
                                (elems (User.favorites twoFavorites)))) + 1)) ]) |},
          s1).
Proof.
  split; [discriminate|]. split; [discriminate|].
  split; [left; reflexivity|].
  apply (X7_accepted_favorite_is_listed plainRuntime twoFavorites "z" "u2"
           [("user_id", "u2")]);
    [discriminate|discriminate|left; reflexivity].
Defined.

(** X8. When at least one stored favorite passes the filter of the query,
    the listing answers an array, never null: the array holds the passing
    records in stored order, it is not empty, and [count] is its length. *)
Theorem X8_match_gives_array (rt : Runtime) (s : User.State)
    (query : list (string * string)) :
  existsb (wanted (Query query "user_id")) (elems (User.favorites s)) = true ->
  exists fav rest,
    filter (wanted (Query query "user_id")) (elems (User.favorites s))
      = fav :: rest /\
    User.handleFavorites rt query s =
      Ok ({| status := StatusOK;
             body := JsonBody (JObj [
               ("favorites", JArr (map (User.marshalFavorite rt) (fav :: rest)));
               ("count", JInt (Z.of_nat (List.length (fav :: rest)))) ]) |}, s).
Proof.
  intros Hex. rewrite handleFavorites_runs.
  destruct (filter (wanted (Query query "user_id")) (elems (User.favorites s)))
    as [|fav rest] eqn:Hf.
  - apply existsb_exists in Hex. destruct Hex as (x & Hin & Hx).
    assert (Hin' : In x (filter (wanted (Query query "user_id"))
                                (elems (User.favorites s))))
      by (apply filter_In; split; assumption).
    rewrite Hf in Hin'. destruct Hin'.
  - exists fav, rest. split; reflexivity.
Qed.

Lemma X8_witness :
  existsb (wanted (Query [("user_id", "u1")] "user_id"))
          (elems (User.favorites twoFavorites)) = true /\
  exists fav rest,
    filter (wanted (Query [("user_id", "u1")] "user_id"))
           (elems (User.favorites twoFavorites)) = fav :: rest /\
    User.handleFavorites plainRuntime [("user_id", "u1")] twoFavorites =
      Ok ({| status := StatusOK;
             body := JsonBody (JObj [
               ("favorites",
                JArr (map (User.marshalFavorite plainRuntime) (fav :: rest)));
               ("count", JInt (Z.of_nat (List.length (fav :: rest)))) ]) |},
          twoFavorites).
Proof.
  split; [reflexivity|].
  apply (X8_match_gives_array plainRuntime twoFavorites [("user_id", "u1")]).
  reflexivity.
Defined.

(** X9. The favorites are only ever appended to.  Whatever sequence of
    posts and listings the service answers (it answers every one), the
    sequence stored before is a prefix of the sequence stored after; what
    was added is one record per post that passed the binding, in the order
    of the posts, with the joke and the user of the post; and the counter
    was incremented once per record added. *)
Theorem X9_favorites_are_append_only (rt : Runtime) (calls : list UserCall)
    (s : User.State) :
  exists resps s' added,
    userRun rt calls s = Ok (resps, s') /\
    List.length resps = List.length calls /\
    elems (User.favorites s') = List.app (elems (User.favorites s)) added /\
    map (fun fav => {| User.reqJoke := User.Joke fav;
                       User.reqUserID := User.UserID fav |}) added
      = boundRequests calls /\
    User.measurements s' =
      List.app (User.measurements s)
               (repeat (Add "user.favorites.added" 1 []) (List.length added)).
Proof.
  revert s. induction calls as [|call calls IH]; intros s.
  - exists [], s, []. cbn. rewrite !app_nil_r. repeat split.
  - cbn [userRun boundRequests]. destruct call as [b|query].
    + cbn [userServe].
      destruct (User.ShouldBindJSON b) as [req|msg] eqn:E.
      * destruct (handleFavorite_accepted rt b s req E) as (s1 & Er & Hf & Hm).
        rewrite Er.
        destruct (IH s1) as (resps & s' & added & Erun & Hlen & Hfav & Hreq & Hmeas).
        rewrite Erun. eexists (_ :: resps), s', (_ :: added).
        split; [reflexivity|].
        split; [cbn [List.length]; rewrite Hlen; reflexivity|].
        split; [rewrite Hfav, Hf; cbn [elems]; rewrite <- app_assoc; reflexivity|].
        split.
        -- cbn [map User.Joke User.UserID]. rewrite Hreq.
           destruct req; reflexivity.
        -- rewrite Hmeas, Hm, <- app_assoc. reflexivity.
      * rewrite (handleFavorite_rejected rt b s msg E).
        destruct (IH s) as (resps & s' & added & Erun & Hlen & Hfav & Hreq & Hmeas).
        rewrite Erun. eexists (_ :: resps), s', added.
        split; [reflexivity|].
        split; [cbn [List.length]; rewrite Hlen; reflexivity|].
        split; [exact Hfav|]. split; [exact Hreq|exact Hmeas].
    + cbn [userServe]. rewrite handleFavorites_runs.
      destruct (IH s) as (resps & s' & added & Erun & Hlen & Hfav & Hreq & Hmeas).
      rewrite Erun. eexists (_ :: resps), s', added.
      split; [reflexivity|].
      split; [cbn [List.length]; rewrite Hlen; reflexivity|].
      split; [exact Hfav|]. split; [exact Hreq|exact Hmeas].
Qed.

(** ** API gateway *)

(** X10. A request that is on none of the three proxied routes (another
    path, or the path of a route with another method) is never forwarded:
    no outbound call is made.  When it is one slash away from a registered
    route of its method the router redirects it, with 301 for a GET and 307
    otherwise, and nothing is recorded; otherwise it is answered 200 when it
    is the health check and 404 when it is not, and the middleware counts it
    under that status and records its latency. *)
Theorem X10_unrouted_is_not_forwarded (rt : Runtime) (nw : Gateway.Network)
    (c : Gateway.Inbound) (s : Gateway.State) :
  Gateway.proxiedRoute (Gateway.inMethod c) (Gateway.inPath c) = None ->
  exists resp s' d,
    Gateway.ServeHTTP rt nw c s = Ok (resp, s') /\
    Gateway.sent s' = Gateway.sent s /\
    status resp =
      (if slashRedirected c
       then if String.eqb (Gateway.inMethod c) "GET"
            then StatusMovedPermanently else StatusTemporaryRedirect
       else if String.eqb (Gateway.inMethod c) "GET" &&
               String.eqb (Gateway.inPath c) "/healthz"
            then StatusOK else StatusNotFound) /\
    Gateway.measurements s' =
      List.app (Gateway.measurements s)
        (if slashRedirected c then []
         else
           [ Add "http.server.request_count" 1
               [ ("method", AString (Gateway.inMethod c));
                 ("path", AString (Gateway.inPath c));
                 ("status_code", AInt (status resp)) ];
             Record_ "http.server.request_duration" d
               [ ("method", AString (Gateway.inMethod c));
                 ("path", AString (Gateway.inPath c)) ] ]).
Proof.
  intros Hr.
  destruct (ServeHTTP_local rt nw c s Hr) as (resp & s' & d & E & Hsent & H).
  exists resp, s', d. split; [exact E|]. split; [exact Hsent|].
  destruct (slashRedirected c).
  - destruct H as (-> & Hm & _). split; [reflexivity|].
    rewrite Hm, app_nil_r. reflexivity.
  - destruct H as (Hst & _ & _ & Hm). split; [exact Hst|exact Hm].
Qed.

Lemma X10_witness :
  Gateway.proxiedRoute (Gateway.inMethod postJoke) (Gateway.inPath postJoke) = None /\
  Gateway.proxiedRoute (Gateway.inMethod postFavoriteSlash)
                       (Gateway.inPath postFavoriteSlash) = None /\
  (exists resp s',
     Gateway.ServeHTTP plainRuntime answering postJoke (Gateway.init steadyClock)
       = Ok (resp, s') /\
     Gateway.sent s' = [] /\ status resp = 404) /\
  (exists resp s',
     Gateway.ServeHTTP plainRuntime answering postFavoriteSlash
                       (Gateway.init steadyClock) = Ok (resp, s') /\
     Gateway.sent s' = [] /\ status resp = 307 /\ Gateway.measurements s' = []).
Proof.
  split; [reflexivity|]. split; [reflexivity|]. split.
  - destruct (X10_unrouted_is_not_forwarded plainRuntime answering postJoke
                (Gateway.init steadyClock) eq_refl)
      as (resp & s' & d & E & Hsent & Hst & _).
    exists resp, s'. split; [exact E|]. split; [exact Hsent|exact Hst].
  - destruct (X10_unrouted_is_not_forwarded plainRuntime answering
                postFavoriteSlash (Gateway.init steadyClock) eq_refl)
      as (resp & s' & d & E & Hsent & Hst & Hm).
    exists resp, s'. split; [exact E|]. split; [exact Hsent|].
    split; [exact Hst|exact Hm].
Defined.

(** X11. Whatever the request, the gateway makes at most one outbound call,
    and only to one of its three backends: the request is then on the method
    and path of a proxied route, and the call goes through a client with a
    timeout of 10 seconds to the configured address of that route's backend
    (the value of its environment variable, or its cluster name when the
    variable is empty) followed by the very path that was requested, with
    the method and body of the request. *)
Theorem X11_forwards_only_to_backends (rt : Runtime) (nw : Gateway.Network)
    (c : Gateway.Inbound) (s : Gateway.State) :
  exists resp s',
    Gateway.ServeHTTP rt nw c s = Ok (resp, s') /\
    (Gateway.sent s' = Gateway.sent s \/
     exists r,
       Gateway.inMethod c =
         match r with
         | Gateway.ToJokes => "GET"
         | Gateway.ToUser => "POST"
         | Gateway.ToAnalytics => "GET"
         end /\
       Gateway.inPath c =
         match r with
         | Gateway.ToJokes => "/api/v1/joke"
         | Gateway.ToUser => "/api/v1/favorite"
         | Gateway.ToAnalytics => "/api/v1/stats"
         end /\
       Gateway.sent s' =
         List.app (Gateway.sent s)
           [({| Gateway.Timeout := 10 * Second |},
             {| Gateway.Method := Gateway.inMethod c;
                Gateway.URL :=
                  "http://" ++
                  match r with
                  | Gateway.ToJokes =>
                      if String.eqb (Getenv rt "JOKES_SERVICE_URL") ""
                      then "jokes-service.default.svc.cluster.local"
                      else Getenv rt "JOKES_SERVICE_URL"
                  | Gateway.ToUser =>
                      if String.eqb (Getenv rt "USER_SERVICE_URL") ""
                      then "user-service.default.svc.cluster.local"
                      else Getenv rt "USER_SERVICE_URL"
                  | Gateway.ToAnalytics =>
                      if String.eqb (Getenv rt "ANALYTICS_SERVICE_URL") ""
                      then "analytics-service.default.svc.cluster.local"
                      else Getenv rt "ANALYTICS_SERVICE_URL"
                  end ++ Gateway.inPath c;
                Gateway.ReqBody := Gateway.inBody c;
                Gateway.ReqHeader :=
                  Gateway.Set_ "Content-Type" "application/json"
                    (Gateway.Inject nw (Gateway.inCtx c) []);
                Gateway.ReqCtx := Gateway.inCtx c |})]).
Proof.
  destruct (Gateway.proxiedRoute (Gateway.inMethod c) (Gateway.inPath c))
    as [r|] eqn:Hr.
  - destruct (ServeHTTP_proxied rt nw r c s Hr) as (resp & s' & d & E & H).
    destruct (proxiedRoute_sound _ _ _ Hr) as (Hm & Hp).
    exists resp, s'. split; [exact E|].
    destruct (Gateway.newRequestError nw (Gateway.inMethod c)
                ("http://" ++ Gateway.routeService rt r ++ Gateway.routePath r)).
    + left. apply H.
    + right. destruct H as (Hsent & _). exists r.
      split; [rewrite Hm; destruct r; reflexivity|].
      split; [rewrite Hp; destruct r; reflexivity|].
      rewrite Hsent. unfold Gateway.outbound, Gateway.proxyClient.
      rewrite <- Hp. destruct r; reflexivity.
  - destruct (ServeHTTP_local rt nw c s Hr) as (resp & s' & d & E & Hsent & _).
    exists resp, s'. split; [exact E|]. left. exact Hsent.
Qed.

Example configured_backend_is_called :
  exists resp s',
    Gateway.ServeHTTP notifyingRuntime unreachable postFavorite
                      (Gateway.init steadyClock) = Ok (resp, s') /\
    status resp = 502 /\
    map (fun sent => Gateway.URL (snd sent)) (Gateway.sent s') =
      ["http://user.internal:8083/api/v1/favorite"].
Proof. eexists _, _. repeat split. Qed.

Lemma In_Set_ (key value k v : string) (h : Gateway.Header) :
  In (k, v) (Gateway.Set_ key value h) <->
  (k = key /\ v = value) \/ (k <> key /\ In (k, v) h).
Proof.
  unfold Gateway.Set_. cbn [In]. rewrite filter_In. cbn [fst].
  rewrite negb_true_iff. split.
  - intros [H | [Hin Hne]].
    + injection H as <- <-. left. split; reflexivity.
    + right. apply String.eqb_neq in Hne. split; assumption.
  - intros [[-> ->] | [Hne Hin]].
    + left. reflexivity.
    + right. apply String.eqb_neq in Hne. split; assumption.
Qed.

(** X12. Setting [Content-Type] on the outbound request does not disturb
    what the propagator injected: on a proxied route whose outbound request
    can be built, the request sent carries [Content-Type: application/json]
    and no other [Content-Type], and under every other key exactly the
    headers injected for the context of the inbound request. *)
Theorem X12_injected_headers_are_sent (rt : Runtime) (nw : Gateway.Network)
    (r : Gateway.ProxiedRoute) (c : Gateway.Inbound) (s : Gateway.State) :
  Gateway.proxiedRoute (Gateway.inMethod c) (Gateway.inPath c) = Some r ->
  Gateway.newRequestError nw (Gateway.inMethod c)
    ("http://" ++ Gateway.routeService rt r ++ Gateway.routePath r) = None ->
  exists resp s' client req,
    Gateway.ServeHTTP rt nw c s = Ok (resp, s') /\
    Gateway.sent s' = List.app (Gateway.sent s) [(client, req)] /\
    (forall v, In ("Content-Type", v) (Gateway.ReqHeader req) <->
               v = "application/json") /\
    (forall k v, k <> "Content-Type" ->
       (In (k, v) (Gateway.ReqHeader req) <->
        In (k, v) (Gateway.Inject nw (Gateway.inCtx c) []))).
Proof.
  intros Hr Hnew.
  destruct (ServeHTTP_proxied rt nw r c s Hr) as (resp & s' & d & E & H).
  rewrite Hnew in H. destruct H as (Hsent & _).
  exists resp, s', Gateway.proxyClient, (Gateway.outbound rt nw r c).
  split; [exact E|]. split; [exact Hsent|].
  cbn [Gateway.outbound Gateway.ReqHeader]. split.
  - intros v. rewrite In_Set_. split.
    + intros [[_ Hv] | [Hne _]]; [exact Hv|congruence].
    + intros ->. left. split; reflexivity.
  - intros k v Hk. rewrite In_Set_. split.
    + intros [[Hk' _] | [_ Hin]]; [congruence|exact Hin].
    + intros Hin. right. split; assumption.
Qed.

Lemma X12_witness :
  Gateway.proxiedRoute (Gateway.inMethod postFavorite) (Gateway.inPath postFavorite)
    = Some Gateway.ToUser /\
  Gateway.newRequestError answering (Gateway.inMethod postFavorite)
    ("http://" ++ Gateway.routeService plainRuntime Gateway.ToUser
               ++ Gateway.routePath Gateway.ToUser) = None /\
  exists resp s' client req,
    Gateway.ServeHTTP plainRuntime answering postFavorite (Gateway.init steadyClock)
      = Ok (resp, s') /\
    Gateway.sent s' =
      List.app (Gateway.sent (Gateway.init steadyClock)) [(client, req)] /\
    (forall v, In ("Content-Type", v) (Gateway.ReqHeader req) <->
               v = "application/json") /\
    (forall k v, k <> "Content-Type" ->
       (In (k, v) (Gateway.ReqHeader req) <->
        In (k, v) (Gateway.Inject answering (Gateway.inCtx postFavorite) []))).
Proof.
  split; [reflexivity|]. split; [reflexivity|].
  apply (X12_injected_headers_are_sent plainRuntime answering Gateway.ToUser
           postFavorite (Gateway.init steadyClock)); reflexivity.
Defined.

(** The durations the gateway records for a request it does not redirect:
    the middleware's spans the first and the last clock reading of the
    request, the proxy's the second and the third. *)
Lemma ServeHTTP_durations (rt : Runtime) (nw : Gateway.Network)
    (c : Gateway.Inbound) (s : Gateway.State) :
  exists resp s' before,
    Gateway.ServeHTTP rt nw c s = Ok (resp, s') /\
    if slashRedirected c
    then Gateway.measurements s' = Gateway.measurements s
    else
      (ticks (Gateway.clock s) < ticks (Gateway.clock s'))%nat /\
      Gateway.measurements s' =
        List.app (Gateway.measurements s)
          (List.app before
             [ countOf c (status resp);
               latencyOf c
                 (Milliseconds
                    (Sub (reading (Gateway.clock s) (pred (ticks (Gateway.clock s'))))
                         (reading (Gateway.clock s) (ticks (Gateway.clock s))))) ]) /\
      (before = [] \/
       exists service code,
         ticks (Gateway.clock s') = S (S (S (S (ticks (Gateway.clock s))))) /\
         before =
           [ proxyLatencyOf service code
               (Milliseconds
                  (Sub (reading (Gateway.clock s) (S (S (ticks (Gateway.clock s)))))
                       (reading (Gateway.clock s) (S (ticks (Gateway.clock s)))))) ]).
Proof.
  destruct (Gateway.proxiedRoute (Gateway.inMethod c) (Gateway.inPath c))
    as [r|] eqn:Hr.
  - rewrite (proxied_not_redirected c r Hr).
    unfold Gateway.ServeHTTP. rewrite route_cases, Hr.
    unfold Gateway.metricsMiddleware, Gateway.proxyRequest,
      Gateway.NewRequestWithContext, Gateway.Do, Gateway.Since, Gateway.Now,
      Gateway.JSON, Gateway.Data.
    run.
    destruct (Gateway.newRequestError nw (Gateway.inMethod c)
                ("http://" ++ Gateway.routeService rt r ++ Gateway.routePath r)).
    + eexists _, _, []. split; [reflexivity|].
      split; [cbn; lia|]. split; [log|left; reflexivity].
    + match goal with
      | |- context [Gateway.roundTrip nw ?cl ?rq] =>
          destruct (Gateway.roundTrip nw cl rq) as [back|err]
      end.
      * destruct (Gateway.RespBody back) as [data|err].
        -- eexists _, _, [_]. split; [reflexivity|].
           split; [cbn; lia|]. split; [log|].
           right. eexists _, _. split; reflexivity.
        -- eexists _, _, [_]. split; [reflexivity|].
           split; [cbn; lia|]. split; [log|].
           right. eexists _, _. split; reflexivity.
      * eexists _, _, []. split; [reflexivity|].
        split; [cbn; lia|]. split; [log|left; reflexivity].
  - destruct (ServeHTTP_local rt nw c s Hr) as (resp & s' & d & E & _ & H).
    exists resp, s', []. split; [exact E|].
    destruct (slashRedirected c).
    + apply H.
    + destruct H as (_ & Ht & -> & Hm).
      split; [exact Ht|]. split; [exact Hm|left; reflexivity].
Qed.

Lemma Sub_mono (t u t' u' : Time) :
  t <= t' -> u' <= u -> Sub t u <= Sub t' u'.
Proof.
  intros Ht Hu. unfold Sub, minInt64, maxInt64.
  destruct (Z.ltb_spec (t - u) (- 2 ^ 63)), (Z.ltb_spec (t' - u') (- 2 ^ 63));
    destruct (Z.ltb_spec (2 ^ 63 - 1) (t - u)), (Z.ltb_spec (2 ^ 63 - 1) (t' - u'));
    lia.
Qed.

(** X13. As long as the clock does not go backwards, no latency the gateway
    records is negative, and the latency recorded for the call to the
    backend never exceeds the latency recorded for the whole request.  (A
    request the router redirects records none.) *)
Theorem X13_latencies_are_ordered (rt : Runtime) (nw : Gateway.Network)
    (c : Gateway.Inbound) (s : Gateway.State) :
  monotone (Gateway.clock s) ->
  exists resp s' before d,
    Gateway.ServeHTTP rt nw c s = Ok (resp, s') /\
    Gateway.measurements s' =
      List.app (Gateway.measurements s)
        (if slashRedirected c then []
         else
           List.app before
             [ Add "http.server.request_count" 1
                 [ ("method", AString (Gateway.inMethod c));
                   ("path", AString (Gateway.inPath c));
                   ("status_code", AInt (status resp)) ];
               Record_ "http.server.request_duration" d
                 [ ("method", AString (Gateway.inMethod c));
                   ("path", AString (Gateway.inPath c)) ] ]) /\
    0 <= d /\
    (forall m, In m before ->
       exists service code d0,
         m = Record_ "http.server.request_duration" d0
               [ ("service", AString service); ("status_code", AInt code) ] /\
         0 <= d0 <= d).
Proof.
  intros Hmono.
  destruct (ServeHTTP_durations rt nw c s) as (resp & s' & before & E & H).
  destruct (slashRedirected c).
  - exists resp, s', [], 0. split; [exact E|].
    split; [rewrite H, app_nil_r; reflexivity|].
    split; [lia|]. intros m [].
  - destruct H as (Hticks & Hm & Hbefore).
    eexists resp, s', before, _. split; [exact E|]. split; [exact Hm|].
    split.
    + unfold Milliseconds, Millisecond. apply Z.quot_pos; [|lia].
      apply Sub_nonneg, Hmono. lia.
    + intros m Hin. destruct Hbefore as [-> | (service & code & Ht & ->)].
      * destruct Hin.
      * destruct Hin as [<- | []]. eexists service, code, _.
        split; [reflexivity|]. unfold Milliseconds, Millisecond. split.
        -- apply Z.quot_pos; [|lia]. apply Sub_nonneg, Hmono. lia.
        -- apply Z.quot_le_mono; [lia|].
           apply Sub_mono; apply Hmono; lia.
Qed.

Lemma X13_witness :
  monotone (Gateway.clock (Gateway.init nanoClock)) /\
  exists resp s' before d,
    Gateway.ServeHTTP plainRuntime answering postFavorite (Gateway.init nanoClock)
      = Ok (resp, s') /\
    Gateway.measurements s' =
      List.app (Gateway.measurements (Gateway.init nanoClock))
        (if slashRedirected postFavorite then []
         else
           List.app before
             [ Add "http.server.request_count" 1
                 [ ("method", AString (Gateway.inMethod postFavorite));
                   ("path", AString (Gateway.inPath postFavorite));
                   ("status_code", AInt (status resp)) ];
               Record_ "http.server.request_duration" d
                 [ ("method", AString (Gateway.inMethod postFavorite));
                   ("path", AString (Gateway.inPath postFavorite)) ] ]) /\
    0 <= d /\
    (forall m, In m before ->
       exists service code d0,
         m = Record_ "http.server.request_duration" d0
               [ ("service", AString service); ("status_code", AInt code) ] /\
         0 <= d0 <= d).
Proof.
  assert (Hmono : monotone (Gateway.clock (Gateway.init nanoClock))).
  { intros i j Hij. cbn. lia. }
  split; [exact Hmono|].
  apply (X13_latencies_are_ordered plainRuntime answering postFavorite
           (Gateway.init nanoClock) Hmono).
Defined.

(** One request: unless the router redirects it, its count is the only
    increment it adds; and it makes at most one outbound call. *)
Lemma ServeHTTP_counted_once (rt : Runtime) (nw : Gateway.Network)
    (c : Gateway.Inbound) (s : Gateway.State) :
  exists resp s',
    Gateway.ServeHTTP rt nw c s = Ok (resp, s') /\
    filter (is_add "http.server.request_count") (Gateway.measurements s') =
      List.app (filter (is_add "http.server.request_count") (Gateway.measurements s))
               (if slashRedirected c then [] else [countOf c (status resp)]) /\
    (List.length (Gateway.sent s') <= List.length (Gateway.sent s) + 1)%nat.
Proof.
  destruct (Gateway.proxiedRoute (Gateway.inMethod c) (Gateway.inPath c))
    as [r|] eqn:Hr.
  - rewrite (proxied_not_redirected c r Hr).
    destruct (ServeHTTP_proxied rt nw r c s Hr) as (resp & s' & d & E & H).
    exists resp, s'. split; [exact E|].
    destruct (Gateway.newRequestError nw (Gateway.inMethod c)
                ("http://" ++ Gateway.routeService rt r ++ Gateway.routePath r)).
    + destruct H as (Hresp & Hsent & Hm).
      rewrite Hm, Hsent, Hresp, filter_app. split; [reflexivity|lia].
    + destruct H as (Hsent & H).
      split; [|rewrite Hsent, length_app; cbn [List.length]; lia].
      destruct (Gateway.roundTrip nw Gateway.proxyClient (Gateway.outbound rt nw r c)).
      * destruct H as ((d0 & Hm) & _). rewrite Hm, filter_app. reflexivity.
      * destruct H as (Hresp & Hm). rewrite Hm, Hresp, filter_app. reflexivity.
  - destruct (ServeHTTP_local rt nw c s Hr) as (resp & s' & d & E & Hsent & H).
    exists resp, s'. split; [exact E|]. rewrite Hsent. split; [|lia].
    destruct (slashRedirected c).
    + destruct H as (_ & Hm & _). rewrite Hm, app_nil_r. reflexivity.
    + destruct H as (_ & _ & _ & Hm). rewrite Hm, filter_app. reflexivity.
Qed.

(** X14. Every request the gateway serves is counted exactly once, under
    the status it was answered with, except the requests the router
    redirects, which are not counted: after any sequence of requests (each
    of which is answered), the increments of [http.server.request_count]
    added are one per request that is not a slash away from a registered
    route of its method, in order, labelled with the method, the path and
    the status of the answer; and the outbound calls made are at most as
    many as the requests. *)
Theorem X14_every_request_is_counted_once (rt : Runtime) (nw : Gateway.Network)
    (reqs : list Gateway.Inbound) (s : Gateway.State) :
  exists resps s',
    gatewayRun rt nw reqs s = Ok (resps, s') /\
    List.length resps = List.length reqs /\
    filter (is_add "http.server.request_count") (Gateway.measurements s') =
      List.app
        (filter (is_add "http.server.request_count") (Gateway.measurements s))
        (map (fun cr : Gateway.Inbound * Response =>
                Add "http.server.request_count" 1
                  [ ("method", AString (Gateway.inMethod (fst cr)));
                    ("path", AString (Gateway.inPath (fst cr)));
                    ("status_code", AInt (status (snd cr))) ])
             (filter (fun cr : Gateway.Inbound * Response =>
                        negb (slashRedirected (fst cr)))
                     (combine reqs resps))) /\
    (List.length (Gateway.sent s') <=
     List.length (Gateway.sent s) + List.length reqs)%nat.
Proof.
  revert s. induction reqs as [|c reqs IH]; intros s.
  - exists [], s. cbn. rewrite app_nil_r. repeat split. lia.
  - cbn [gatewayRun].
    destruct (ServeHTTP_counted_once rt nw c s) as (resp & s1 & E & Hm & Hsent).
    rewrite E.
    destruct (IH s1) as (resps & s' & Erun & Hlen & Hm' & Hsent').
    rewrite Erun. exists (resp :: resps), s'.
    split; [reflexivity|].
    split; [cbn [List.length]; rewrite Hlen; reflexivity|].
    split.
    + rewrite Hm', Hm, <- app_assoc. cbn [combine filter fst].
      destruct (slashRedirected c); reflexivity.
    + cbn [List.length]. lia.
Qed.

Example redirect_is_not_counted :
  exists resps s',
    gatewayRun plainRuntime answering [getHealthz; getHealthzSlash; postJoke]
               (Gateway.init steadyClock) = Ok (resps, s') /\
    map status resps = [200; 301; 404] /\
    filter (is_add "http.server.request_count") (Gateway.measurements s') =
      [ Add "http.server.request_count" 1
          [ ("method", AString "GET"); ("path", AString "/healthz");
            ("status_code", AInt 200) ];
        Add "http.server.request_count" 1
          [ ("method", AString "POST"); ("path", AString "/api/v1/joke");
            ("status_code", AInt 404) ] ].
Proof. eexists _, _. repeat split. Qed.
